(** * kube-lego: ACME account provisioning ([pkg/acme/user.go])

    A shallow embedding of the six methods of [user.go] ([getContact],
    [acceptTos], [createUser], [getUser], [validateUser],
    [generatePrivateKey]) and the properties of the account life cycle.

    The methods talk to three outside parties: the account store and the
    logger (through the [kubelego] interface), the system random source
    (through [crypto/rsa] and [crypto/ecdsa]) and the certificate authority
    (through [acme.Client]).  Every such call is an [Effect]; a method is a
    finite tree of effects ([prog]) and a run of it against a [World] yields
    the trace of calls made, with the answers received, and the outcome.
    Go's pure library routines ([encoding/pem], [crypto/x509],
    [encoding/json], [strings]) are an interface, [GoStdlib], with the
    contracts their documentation states. *)

From Stdlib Require Import ZArith Strings.Ascii Strings.Byte.
From stdpp Require Import base option list strings gmap.

Local Open Scope string_scope.
Local Open Scope Z_scope.
Local Open Scope list_scope.

(** * The model *)

(** ** Go values *)

(** [[]byte] *)
Abbreviation bytes := (list byte).

Global Instance byte_eq_decision : EqDecision byte := byte_eq_dec.

(** A slice is [nil] ([None]) or a sequence of elements; a non-nil empty
    slice is [Some []].  [reflect.DeepEqual] tells the two apart. *)
Definition slice (A : Type) : Type := option (list A).

(** The [error] interface, seen through its [Error()] text. *)
Inductive error : Type := errorString (msg : string).

Definition Error (e : error) : string :=
  match e with errorString msg => msg end.

Global Instance error_eq_dec : EqDecision error.
Proof. solve_decision. Defined.

(** The [(value, error)] return convention. *)
Inductive result (A : Type) : Type :=
| Ok (a : A)
| Err (err : error).
Arguments Ok {A} a.
Arguments Err {A} err.

Definition is_Ok {A} (r : result A) : bool :=
  match r with Ok _ => true | Err _ => false end.

(** [[]byte(s)] and [string(b)]: a Go string is its bytes. *)
Definition bytes_of_string (s : string) : bytes := String.list_byte_of_string s.
Definition string_of_bytes (b : bytes) : string := String.string_of_list_byte b.

(** ** [fmt]: the [%s] verb *)

Inductive fmt_arg : Type :=
| ArgString (s : string)
| ArgError (e : error)
| ArgStrings (l : slice string).

Fixpoint join_space (l : list string) : string :=
  match l with
  | [] => ""
  | [x] => x
  | x :: rest => x +:+ " " +:+ join_space rest
  end.

(** What [%s] prints: a string as it is, an error through [Error()], a
    slice of strings space-separated within brackets. *)
Definition fmt_verb_s (x : fmt_arg) : string :=
  match x with
  | ArgString s => s
  | ArgError e => Error e
  | ArgStrings l => "[" +:+ join_space (default [] l) +:+ "]"
  end.

(** [fmt.Sprintf] for formats whose only verb is [%s]. *)
Fixpoint fmt_Sprintf (format : string) (args : list fmt_arg) : string :=
  match format with
  | EmptyString => ""
  | String "%"%char (String "s"%char rest) =>
      match args with
      | x :: args' => fmt_verb_s x +:+ fmt_Sprintf rest args'
      | [] => "%!s(MISSING)" +:+ fmt_Sprintf rest []
      end
  | String c rest => String c (fmt_Sprintf rest args)
  end.

Arguments fmt_Sprintf : simpl never.

(** [fmt.Errorf] *)
Definition fmt_Errorf (format : string) (args : list fmt_arg) : error :=
  errorString (fmt_Sprintf format args).

(** [strings.Contains], used to read error texts. *)
Fixpoint has_prefix (p s : string) : bool :=
  match p, s with
  | EmptyString, _ => true
  | String a p', String b s' => if decide (a = b) then has_prefix p' s' else false
  | String _ _, EmptyString => false
  end.

Fixpoint strings_Contains (s substr : string) : bool :=
  has_prefix substr s ||
  match s with
  | EmptyString => false
  | String _ s' => strings_Contains s' substr
  end.

(** ** [encoding/pem], [crypto/elliptic], [golang.org/x/crypto/acme] *)

Record pem_Block : Type := mkBlock {
  Block_Type : string;
  Block_Headers : gmap string string;
  Block_Bytes : bytes
}.

Inductive elliptic_Curve : Type := P224 | P256 | P384 | P521.

Global Instance elliptic_Curve_eq_dec : EqDecision elliptic_Curve.
Proof. solve_decision. Defined.

(** Modelled from the spec: [acmeAccountRegistration] is declared in
    another file of package [acme]; the legacy blob is a JSON object
    containing a URI field. *)
Record acmeAccountRegistration : Type := mkRegistration {
  Registration_URI : string
}.

(** ** Constants of package [kubelego_const]

    The package is not part of this development: its constants are taken as
    parameters.  The two keys of the map literal in [createUser] are
    distinct, as Go rejects a duplicate constant key in a map literal. *)
Class KubeLegoConst : Type := {
  KeyType : Type;
  KeyType_eq_dec :: EqDecision KeyType;
  KeyTypeRsa : KeyType;
  AcmePrivateKey : string;
  AcmeRegistrationUrl : string;
  AcmeRegistration : string;
  AcmePrivateKey_ne_AcmeRegistrationUrl : AcmePrivateKey ≠ AcmeRegistrationUrl
}.

(** ** The key types of [crypto/rsa] and [crypto/ecdsa] *)
Class CryptoKeys : Type := {
  rsa_PrivateKey : Type;
  ecdsa_PrivateKey : Type
}.

(** ** The pure routines of Go's standard library *)
Class GoStdlib {keys : CryptoKeys} : Type := {
  strings_ToLower : string → string;
  pem_EncodeToMemory : pem_Block → bytes;
  (** [pem.Decode]: [None] is the nil block returned when no PEM data is
      found; otherwise the block and the rest of the input. *)
  pem_Decode : bytes → option (pem_Block * bytes);
  x509_MarshalPKCS1PrivateKey : rsa_PrivateKey → bytes;
  x509_ParsePKCS1PrivateKey : bytes → result rsa_PrivateKey;
  x509_MarshalECPrivateKey : ecdsa_PrivateKey → result bytes;
  x509_ParseECPrivateKey : bytes → result ecdsa_PrivateKey;
  (** [json.Unmarshal] into an [acmeAccountRegistration] *)
  json_Unmarshal : bytes → result acmeAccountRegistration;

  (** a block without headers, of one of the two types written by
      [generatePrivateKey], decodes to itself *)
  pem_Decode_EncodeToMemory : ∀ t b,
    t = "RSA PRIVATE KEY" ∨ t = "EC PRIVATE KEY" →
    pem_Decode (pem_EncodeToMemory (mkBlock t ∅ b)) = Some (mkBlock t ∅ b, []);
  (** PKCS#1 and SEC 1 encodings parse back to the key *)
  x509_ParsePKCS1_Marshal : ∀ k,
    x509_ParsePKCS1PrivateKey (x509_MarshalPKCS1PrivateKey k) = Ok k;
  x509_ParseEC_Marshal : ∀ k b,
    x509_MarshalECPrivateKey k = Ok b → x509_ParseECPrivateKey b = Ok k;
  (** keys on the named curves have a SEC 1 encoding *)
  x509_MarshalEC_Ok : ∀ k, is_Ok (x509_MarshalECPrivateKey k) = true;
  (** a SEC 1 structure is not a PKCS#1 structure: its second field is an
      OCTET STRING where PKCS#1 has an INTEGER *)
  x509_ParsePKCS1_MarshalEC : ∀ k b,
    x509_MarshalECPrivateKey k = Ok b → is_Ok (x509_ParsePKCS1PrivateKey b) = false
}.

(** [reflect.DeepEqual] on two [[]string]: both nil, or both non-nil of the
    same length with equal elements at every position. *)
Fixpoint strings_DeepEqual (l1 l2 : list string) : bool :=
  match l1, l2 with
  | [], [] => true
  | x :: l1', y :: l2' => bool_decide (x = y) && strings_DeepEqual l1' l2'
  | _, _ => false
  end.

Definition reflect_DeepEqual (x y : slice string) : bool :=
  match x, y with
  | None, None => true
  | Some l1, Some l2 => strings_DeepEqual l1 l2
  | _, _ => false
  end.

Section Provisioning.
Context {consts : KubeLegoConst} {keys : CryptoKeys} {golib : GoStdlib}.

(** [crypto.Signer], with its two implementations used here *)
Inductive crypto_Signer : Type :=
| SignerRsa (k : rsa_PrivateKey)
| SignerEcdsa (k : ecdsa_PrivateKey).

Record acme_Client : Type := mkClient {
  Client_Key : crypto_Signer;
  Client_DirectoryURL : string
}.

(** [acme.Account]: the two fields this file reads or writes, and the rest
    of the record, which it carries along untouched. *)
Record acme_Account : Type := mkAccount {
  Account_URI : string;
  Account_Contact : slice string;
  Account_other : string
}.

(** How a [Register] call of the directory client proceeds: it returns, or
    it first calls the prompt with the terms-of-service URL and goes on
    with the answer. *)
Inductive RegisterReply : Type :=
| RegisterDone (r : result acme_Account)
| RegisterPrompt (tosURL : string) (resume : bool → result acme_Account).

(** ** Calls to the outside, each with the type of its answer *)
Inductive Effect : Type → Type :=
| Log_Infof (msg : string) : Effect unit
| kubelego_AcmeUser : Effect (result (gmap string bytes))
| kubelego_SaveAcmeUser (m : gmap string bytes) : Effect (option error)
| rsa_GenerateKey (bits : Z) : Effect (result rsa_PrivateKey)
| ecdsa_GenerateKey (c : elliptic_Curve) : Effect (result ecdsa_PrivateKey)
| Client_Register (c : acme_Client) (a : acme_Account) : Effect RegisterReply
| Client_GetReg (c : acme_Client) (uri : string) : Effect (result acme_Account)
| Client_UpdateReg (c : acme_Client) (a : acme_Account) : Effect (result acme_Account).

(** ** Programs: finite trees of calls, ending in a value or a panic *)
Inductive prog (R : Type) : Type :=
| Ret (r : R)
| Panic (msg : string)
| Vis {X : Type} (e : Effect X) (k : X → prog R).
Arguments Ret {R} r.
Arguments Panic {R} msg.
Arguments Vis {R X} e k.

Fixpoint bind {A B : Type} (p : prog A) (f : A → prog B) : prog B :=
  match p with
  | Ret r => f r
  | Panic msg => Panic msg
  | Vis e k => Vis e (λ x, bind (k x) f)
  end.

Global Instance prog_ret : MRet prog := λ _ r, Ret r.
Global Instance prog_bind : MBind prog := λ _ _ f p, bind p f.

Definition call {X : Type} (e : Effect X) : prog X := Vis e Ret.

(** The methods of the [kubelego] interface that only read configuration. *)
Record KubeLego : Type := mkKubeLego {
  LegoEmail : string;
  LegoURL : string;
  LegoKeyType : KeyType;
  LegoKeySize : Z
}.

Variable kubelego : KubeLego.

(** ** The methods of [user.go] *)

Definition getContact : slice string :=
  Some [fmt_Sprintf "mailto:%s" [ArgString (strings_ToLower (LegoEmail kubelego))]].

Definition acceptTos (tos : string) : prog bool :=
  call (Log_Infof (fmt_Sprintf
    "if you don't accept the TOS (%s) please exit the program now" [ArgString tos]));;
  mret true.

(** [client.Register(ctx, account, prompt)] *)
Definition Register (client : acme_Client) (account : acme_Account)
    (prompt : string → prog bool) : prog (result acme_Account) :=
  reply ← call (Client_Register client account);
  match reply with
  | RegisterDone r => mret r
  | RegisterPrompt tosURL resume => ok ← prompt tosURL; mret (resume ok)
  end.

Definition generatePrivateKey : prog (result (bytes * crypto_Signer)) :=
  if decide (LegoKeyType kubelego = KeyTypeRsa) then
    r ← call (rsa_GenerateKey (LegoKeySize kubelego));
    match r with
    | Err err => mret (Err err)
    | Ok privateKey =>
        let block :=
          mkBlock "RSA PRIVATE KEY" ∅ (x509_MarshalPKCS1PrivateKey privateKey) in
        mret (Ok (pem_EncodeToMemory block, SignerRsa privateKey))
    end
  else
    (* switch: the cases are tried in order, [default] when none matches *)
    r ← (let size := LegoKeySize kubelego in
         if decide (size = 224) then call (ecdsa_GenerateKey P224)
         else if decide (size = 256) then call (ecdsa_GenerateKey P256)
         else if decide (size = 384) then call (ecdsa_GenerateKey P384)
         else if decide (size = 521) then call (ecdsa_GenerateKey P521)
         else (* default *) call (ecdsa_GenerateKey P384));
    match r with
    | Err err => mret (Err err)
    | Ok ecpk =>
        match x509_MarshalECPrivateKey ecpk with
        | Err err => mret (Err err)
        | Ok b =>
            let block := mkBlock "EC PRIVATE KEY" ∅ b in
            mret (Ok (pem_EncodeToMemory block, SignerEcdsa ecpk))
        end
    end.

Definition createUser : prog (result (acme_Client * acme_Account)) :=
  r ← generatePrivateKey;
  match r with
  | Err err => mret (Err err)
  | Ok (privateKeyPem, privateKey) =>
      let client := mkClient privateKey (LegoURL kubelego) in
      let account := mkAccount "" getContact "" in
      r ← Register client account acceptTos;
      match r with
      | Err err => mret (Err err)
      | Ok account =>
          call (Log_Infof (fmt_Sprintf
            "created an ACME account (registration url: %s)"
            [ArgString (Account_URI account)]));;
          err ← call (kubelego_SaveAcmeUser
            {[ AcmePrivateKey := privateKeyPem;
               AcmeRegistrationUrl := bytes_of_string (Account_URI account) ]});
          match err with
          | Some err => mret (Err err)
          | None => mret (Ok (client, account))
          end
      end
  end.

Definition getUser : prog (result (acme_Client * string)) :=
  r ← call kubelego_AcmeUser;
  match r with
  | Err err => mret (Err err)
  | Ok userData =>
      match userData !! AcmePrivateKey with
      | None =>
          mret (Err (fmt_Errorf "could not find acme private key with key '%s'"
                       [ArgString AcmePrivateKey]))
      | Some privateKeyData =>
          match pem_Decode privateKeyData with
          | None =>
              (* [block.Bytes] on the nil block *)
              Panic "runtime error: invalid memory address or nil pointer dereference"
          | Some (block, _) =>
              match x509_ParsePKCS1PrivateKey (Block_Bytes block) with
              | Err err => mret (Err err)
              | Ok privateKey =>
                  let client := mkClient (SignerRsa privateKey) (LegoURL kubelego) in
                  match userData !! AcmeRegistrationUrl with
                  | Some accountURIBytes =>
                      mret (Ok (client, string_of_bytes accountURIBytes))
                  | None =>
                      match userData !! AcmeRegistration with
                      | None =>
                          mret (Err (fmt_Errorf
                            "could not find an ACME account URI in the account secret" []))
                      | Some regData =>
                          match json_Unmarshal regData with
                          | Err err => mret (Err err)
                          | Ok reg => mret (Ok (client, Registration_URI reg))
                          end
                      end
                  end
              end
          end
      end
  end.

Definition validateUser (client : acme_Client) (accountURI : string)
    : prog (result acme_Account) :=
  r ← call (Client_GetReg client accountURI);
  match r with
  | Err err =>
      mret (Err (fmt_Errorf "failed to retrieve ACME account for URI '%s': %s"
                   [ArgString accountURI; ArgError err]))
  | Ok account =>
      let contact := getContact in
      if negb (reflect_DeepEqual (Account_Contact account) contact) then
        let account :=
          mkAccount (Account_URI account) contact (Account_other account) in
        r ← call (Client_UpdateReg client account);
        match r with
        | Err err =>
            mret (Err (fmt_Errorf "failed to update ACME account's contact to '%s': %s"
                         [ArgStrings contact; ArgError err]))
        | Ok account =>
            call (Log_Infof (fmt_Sprintf "updated ACME account's contact to '%s'"
                               [ArgStrings contact]));;
            mret (Ok account)
        end
      else mret (Ok account)
  end.

End Provisioning.

Arguments Ret {_ R} r.
Arguments Panic {_ R} msg.
Arguments Vis {_ R X} e k.

(** Modelled from the spec: the caller of these methods is in another file
    of package [acme].  On the existing-account path [getUser] is followed
    by [validateUser] on the client and the URI it returned. *)
Definition existingAccountPath {consts : KubeLegoConst} {keys : CryptoKeys}
    {golib : GoStdlib}
    (kubelego : KubeLego)
    : prog (result acme_Account) :=
  r ← getUser kubelego;
  match r with
  | Err err => mret (Err err)
  | Ok (client, accountURI) => validateUser kubelego client accountURI
  end.

(** ** Running a program against the outside world *)
Section Semantics.
Context {keys : CryptoKeys}.

(** The outside world: whatever state it carries (entropy, the secret
    behind the store, the authority's database) and its answer to each
    call. *)
Record World : Type := mkWorld {
  WState : Type;
  answer : ∀ X : Type, Effect X → WState → X * WState
}.

(** A call together with the answer it received. *)
Inductive event : Type :=
| Ev {X : Type} (e : Effect X) (x : X).

Inductive outcome (R : Type) : Type :=
| Returned (r : R)
| Panicked (msg : string).
Arguments Returned {R} r.
Arguments Panicked {R} msg.

Fixpoint run {R : Type} (W : World) (p : prog R) (s : WState W)
    : list event * outcome R * WState W :=
  match p with
  | Ret r => ([], Returned r, s)
  | Panic msg => ([], Panicked msg, s)
  | Vis e k =>
      let '(x, s1) := answer W _ e s in
      let '(t, o, s2) := run W (k x) s1 in
      (Ev e x :: t, o, s2)
  end.

Definition trace_of {R S : Type} (r : list event * outcome R * S) : list event := r.1.1.
Definition outcome_of {R S : Type} (r : list event * outcome R * S) : outcome R := r.1.2.
Definition final_of {R S : Type} (r : list event * outcome R * S) : S := r.2.

(** What the prompt of this package answers: [acceptTos] returns [true]. *)
Definition Register_result (reply : RegisterReply) : result acme_Account :=
  match reply with
  | RegisterDone r => r
  | RegisterPrompt _ resume => resume true
  end.

(** *** Reading a trace *)

Definition register_call (ev : event)
    : option (acme_Client * acme_Account * result acme_Account) :=
  match ev with
  | Ev e x =>
      match e in Effect X return X → option _ with
      | Client_Register c a => λ reply, Some (c, a, Register_result reply)
      | _ => λ _, None
      end x
  end.

Definition getreg_call (ev : event)
    : option (acme_Client * string * result acme_Account) :=
  match ev with
  | Ev e x =>
      match e in Effect X return X → option _ with
      | Client_GetReg c uri => λ r, Some (c, uri, r)
      | _ => λ _, None
      end x
  end.

Definition updatereg_call (ev : event)
    : option (acme_Client * acme_Account * result acme_Account) :=
  match ev with
  | Ev e x =>
      match e in Effect X return X → option _ with
      | Client_UpdateReg c a => λ r, Some (c, a, r)
      | _ => λ _, None
      end x
  end.

Definition save_call (ev : event) : option (gmap string bytes * option error) :=
  match ev with
  | Ev e x =>
      match e in Effect X return X → option _ with
      | kubelego_SaveAcmeUser m => λ err, Some (m, err)
      | _ => λ _, None
      end x
  end.

Definition load_call (ev : event) : option (result (gmap string bytes)) :=
  match ev with
  | Ev e x =>
      match e in Effect X return X → option _ with
      | kubelego_AcmeUser => λ r, Some r
      | _ => λ _, None
      end x
  end.

(** A key generation call: the bit length or the curve asked for, and the
    signer or the error that came back. *)
Definition keygen_call (ev : event)
    : option ((Z + elliptic_Curve) * result crypto_Signer) :=
  match ev with
  | Ev e x =>
      match e in Effect X return X → option _ with
      | rsa_GenerateKey bits => λ r,
          Some (inl bits, match r with Ok k => Ok (SignerRsa k) | Err err => Err err end)
      | ecdsa_GenerateKey c => λ r,
          Some (inr c, match r with Ok k => Ok (SignerEcdsa k) | Err err => Err err end)
      | _ => λ _, None
      end x
  end.

Definition register_calls : list event → _ := omap register_call.
Definition getreg_calls : list event → _ := omap getreg_call.
Definition updatereg_calls : list event → _ := omap updatereg_call.
Definition save_calls : list event → _ := omap save_call.
Definition load_calls : list event → _ := omap load_call.
Definition keygen_calls : list event → _ := omap keygen_call.

(** The operations of the directory client. *)
Definition is_network (ev : event) : bool :=
  match register_call ev, getreg_call ev, updatereg_call ev with
  | None, None, None => false
  | _, _, _ => true
  end.

Definition network_calls (t : list event) : list event := filter (λ ev, is_network ev = true) t.

(** *** A property of every run: it holds whatever the world answers *)
Fixpoint always {R : Type} (p : prog R) (Q : list event → outcome R → Prop) : Prop :=
  match p with
  | Ret r => Q [] (Returned r)
  | Panic msg => Q [] (Panicked msg)
  | Vis e k => ∀ x, always (k x) (λ t o, Q (Ev e x :: t) o)
  end.

(** The account store seen in the state of the world: only a
    [SaveAcmeUser] call changes it. *)
Record StoreView (W : World) : Type := mkStoreView {
  Store : Type;
  store_of : WState W → Store;
  store_frame : ∀ (X : Type) (e : Effect X) (x : X) (s s1 : WState W),
    answer W X e s = (x, s1) → save_call (Ev e x) = None → store_of s1 = store_of s
}.

End Semantics.

Arguments Ev {_ X} e x.
Arguments Returned {R} r.
Arguments Panicked {R} msg.
Arguments Store {_ _} _.
Arguments store_of {_ _} _ _.

(** ** Words of the specification *)
Section Words.
Context {consts : KubeLegoConst} {keys : CryptoKeys} {golib : GoStdlib}.
Variable kubelego : KubeLego.

(** The configuration with another key size. *)
Definition with_key_size (k : KubeLego) (size : Z) : KubeLego :=
  mkKubeLego (LegoEmail k) (LegoURL k) (LegoKeyType k) size.

(** The key family the configuration selects, its PEM type tag and its
    standard parse routine, as the specification words them. *)
Inductive family : Type := FamilyRsa | FamilyEc.

Definition configured_family : family :=
  if decide (LegoKeyType kubelego = KeyTypeRsa) then FamilyRsa else FamilyEc.

Definition family_tag (f : family) : string :=
  match f with
  | FamilyRsa => "RSA PRIVATE KEY"
  | FamilyEc => "EC PRIVATE KEY"
  end.

Definition family_parse (f : family) (der : bytes) : result crypto_Signer :=
  match f with
  | FamilyRsa =>
      match x509_ParsePKCS1PrivateKey der with
      | Ok k => Ok (SignerRsa k)
      | Err err => Err err
      end
  | FamilyEc =>
      match x509_ParseECPrivateKey der with
      | Ok k => Ok (SignerEcdsa k)
      | Err err => Err err
      end
  end.

(** [wraps uri cause e]: the text of the error [e] holds the URI and the
    text of the cause, as a protocol error is to be wrapped. *)
Definition wraps (uri : string) (cause e : error) : bool :=
  strings_Contains (Error e) uri && strings_Contains (Error e) (Error cause).

End Words.

(** ** Facts about strings and slices *)

Lemma append_empty_r (x : string) : x +:+ "" = x.
Proof. induction x as [|c x IH]; [done|]. exact (f_equal (String c) IH). Qed.

Lemma append_assoc (x y z : string) : (x +:+ y) +:+ z = x +:+ (y +:+ z).
Proof.
  induction x as [|c x IH]; [done|]. exact (f_equal (String c) IH).
Qed.

Lemma has_prefix_app (p s : string) : has_prefix p (p +:+ s) = true.
Proof.
  induction p as [|c p IH]; [done|].
  change (String c p +:+ s) with (String c (p +:+ s)). cbn. by rewrite decide_True.
Qed.

Lemma strings_Contains_here (substr b : string) :
  strings_Contains (substr +:+ b) substr = true.
Proof.
  destruct (substr +:+ b) eqn:Hs; cbn; rewrite <- Hs; by rewrite has_prefix_app.
Qed.

Lemma strings_Contains_skip (a s substr : string) :
  strings_Contains s substr = true → strings_Contains (a +:+ s) substr = true.
Proof.
  intros Hs. induction a as [|c a IH]; [done|].
  change (String c a +:+ s) with (String c (a +:+ s)).
  cbn. rewrite IH. apply orb_true_r.
Qed.

Lemma strings_Contains_end (a substr : string) :
  strings_Contains (a +:+ substr) substr = true.
Proof.
  apply strings_Contains_skip. rewrite <- (append_empty_r substr) at 1.
  apply strings_Contains_here.
Qed.

Lemma strings_DeepEqual_spec (l1 l2 : list string) :
  strings_DeepEqual l1 l2 = true ↔ l1 = l2.
Proof.
  revert l2. induction l1 as [|x l1 IH]; intros [|y l2]; cbn; try done.
  rewrite andb_true_iff, bool_decide_eq_true, IH. split.
  - by intros [-> ->].
  - by intros [= -> ->].
Qed.

Lemma reflect_DeepEqual_spec (x y : slice string) :
  reflect_DeepEqual x y = true ↔ x = y.
Proof.
  destruct x as [l1|], y as [l2|]; cbn; try done.
  rewrite strings_DeepEqual_spec. split; congruence.
Qed.

(** ** Facts about runs *)
Section Facts.
Context {keys : CryptoKeys}.

Lemma always_mono {R} (p : prog R) (Q Q' : list event → outcome R → Prop) :
  (∀ t o, Q t o → Q' t o) → always p Q → always p Q'.
Proof.
  revert Q Q'. induction p as [r|msg|X e k IH]; intros Q Q' HQ; cbn; auto.
  intros Hp x. eapply IH; [|apply Hp]. cbn. auto.
Qed.

Lemma always_assume {R} (p : prog R) (P : Prop) (Q : list event → outcome R → Prop) :
  (P → always p Q) → always p (λ t o, P → Q t o).
Proof.
  revert Q. induction p as [r|msg|X e k IH]; intros Q Hp; cbn in *; [done..|].
  intros x. apply (IH x (λ t o, Q (Ev e x :: t) o)). intros HP. by apply Hp.
Qed.

Lemma run_always {R} (W : World) (p : prog R) (s : WState W) Q :
  always p Q → Q (trace_of (run W p s)) (outcome_of (run W p s)).
Proof.
  revert s Q. induction p as [r|msg|X e k IH]; intros s Q Hp; cbn in *; auto.
  destruct (answer W X e s) as [x s1].
  specialize (IH x s1 _ (Hp x)).
  destruct (run W (k x) s1) as [[t o] s2]. exact IH.
Qed.

Lemma run_bind {A B} (W : World) (p : prog A) (f : A → prog B) (s : WState W) :
  run W (p ≫= f) s =
  match run W p s with
  | (t, Returned r, s1) =>
      let '(t', o, s2) := run W (f r) s1 in (t ++ t', o, s2)
  | (t, Panicked msg, s1) => (t, Panicked msg, s1)
  end.
Proof.
  revert s. induction p as [r|msg|X e k IH]; intros s; cbn.
  - by destruct (run W (f r) s) as [[??]?].
  - done.
  - destruct (answer W X e s) as [x s1].
    change (bind (k x) f) with (k x ≫= f). rewrite IH.
    destruct (run W (k x) s1) as [[t [r|msg]] s2]; [|done].
    by destruct (run W (f r) s2) as [[??]?].
Qed.

Lemma store_unchanged {R} (W : World) (V : StoreView W) (p : prog R) (s : WState W) :
  save_calls (trace_of (run W p s)) = [] →
  store_of V (final_of (run W p s)) = store_of V s.
Proof.
  revert s. induction p as [r|msg|X e k IH]; intros s; [done..|].
  cbn [run]. destruct (answer W X e s) as [x s1] eqn:Hans.
  specialize (IH x s1).
  destruct (run W (k x) s1) as [[t o] s2].
  unfold save_calls, trace_of, final_of in *. cbn [fst snd omap list_omap] in *.
  destruct (save_call (Ev e x)) eqn:Hsave; [done|].
  intros Ht. rewrite (IH Ht). by eapply store_frame.
Qed.

End Facts.

(** Going through every answer the world can give: calls are answered one
    by one, and every test on an answer is split. *)
Ltac explore :=
  repeat (cbn;
    match goal with
    | |- always ?p _ =>
        match p with
        | context [match ?x with _ => _ end] => destruct x eqn:?
        | context [decide ?P] => destruct (decide P)
        end
    | |- ∀ x : _, always _ _ => intros ?
    | |- () → _ => intros _
    end);
  cbn.

(** The first call of the program was answered with [v], as the trace in
    the hypothesis [H] of the goal says. *)
Ltac first_answer_is v :=
  cbn; let x := fresh "x" in intros x;
  eapply always_mono; [|apply (always_assume _ (x = v))];
  [ let H := fresh in
    let HQ := fresh in
    intros ? ? HQ H; apply HQ; revert H; cbn; congruence
  | intros -> ].

Ltac read_trace :=
  unfold register_calls, getreg_calls, updatereg_calls, save_calls, load_calls,
    keygen_calls in *; cbn in *.

(** * Properties of the account life cycle *)
Section Claims.
Context {consts : KubeLegoConst} {keys : CryptoKeys} {golib : GoStdlib}.
Variable kubelego : KubeLego.

(** ** The existing-account path *)

Lemma getUser_quiet :
  always (getUser kubelego) (λ t _,
    save_calls t = [] ∧ keygen_calls t = [] ∧ network_calls t = []).
Proof. unfold getUser. explore; done. Qed.

Lemma validateUser_quiet client accountURI :
  always (validateUser kubelego client accountURI) (λ t _,
    save_calls t = [] ∧ keygen_calls t = []).
Proof. unfold validateUser. explore; done. Qed.

Lemma existingAccountPath_quiet :
  always (existingAccountPath kubelego) (λ t _,
    save_calls t = [] ∧ keygen_calls t = []).
Proof. unfold existingAccountPath, getUser, validateUser. explore; done. Qed.

(** C7. On the existing-account path no run of [getUser], of
    [validateUser], or of the one followed by the other writes to the
    account store: the trace holds no [SaveAcmeUser] call, no key is
    generated, and the store is at the end what it was at the start. *)
Theorem existing_account_path_never_writes (W : World) (s : WState W) :
  save_calls (trace_of (run W (getUser kubelego) s)) = [] ∧
  (∀ client accountURI,
     save_calls (trace_of (run W (validateUser kubelego client accountURI) s)) = []) ∧
  (let r := run W (existingAccountPath kubelego) s in
   save_calls (trace_of r) = [] ∧ keygen_calls (trace_of r) = [] ∧
   ∀ V : StoreView W, store_of V (final_of r) = store_of V s).
Proof.
  split; [|split].
  - apply (run_always W _ s (λ t _, save_calls t = [])).
    eapply always_mono; [|apply getUser_quiet]. by intros ?? [? _].
  - intros client accountURI.
    apply (run_always W _ s (λ t _, save_calls t = [])).
    eapply always_mono; [|apply validateUser_quiet]. by intros ?? [? _].
  - cbn zeta.
    pose proof (run_always W _ s _ existingAccountPath_quiet) as [Hs Hk].
    split; [done|]. split; [done|].
    intros V. by apply store_unchanged.
Qed.

(** ** The new-account path *)

Lemma generatePrivateKey_only_generates :
  always (generatePrivateKey kubelego) (λ t _,
    register_calls t = [] ∧ save_calls t = []).
Proof. unfold generatePrivateKey. explore; done. Qed.

Lemma createUser_register_error_no_write_aux (W : World) (s : WState W)
    client account cause :
  let r := run W (createUser kubelego) s in
  (client, account, Err cause) ∈ register_calls (trace_of r) →
  outcome_of r = Returned (Err cause) ∧ save_calls (trace_of r) = [].
Proof.
  intros r. subst r.
  apply (run_always W _ s (λ t o,
    (client, account, Err cause) ∈ register_calls t →
    o = Returned (Err cause) ∧ save_calls t = [])).
  unfold createUser, generatePrivateKey. explore.
  all: read_trace; rewrite ?elem_of_cons, ?elem_of_nil.
  all: intros Hin; decompose [or] Hin; by simplify_eq.
Qed.

(** C10. When the register call of a run of [createUser] returns an
    error, [createUser] returns that very error and makes no store write:
    the account store is unchanged. *)
Theorem createUser_register_error_no_write (W : World) (s : WState W)
    client account cause :
  let r := run W (createUser kubelego) s in
  (client, account, Err cause) ∈ register_calls (trace_of r) →
  outcome_of r = Returned (Err cause) ∧
  save_calls (trace_of r) = [] ∧
  ∀ V : StoreView W, store_of V (final_of r) = store_of V s.
Proof.
  intros r Hreg.
  destruct (createUser_register_error_no_write_aux W s _ _ _ Hreg) as [Ho Hs].
  split; [done|]. split; [done|].
  intros V. by apply store_unchanged.
Qed.

(** C2, as amended. In every run of [createUser] in which key generation
    succeeds, exactly one register call is made, with the generated key
    and the expected contact; when it succeeds, the store is written
    exactly once, with one mapping that holds the PEM-encoded key under
    [AcmePrivateKey] and the URI assigned by the authority under
    [AcmeRegistrationUrl], and nothing else. *)
Theorem createUser_registers_once_and_saves (W : World) (s : WState W) pem key :
  outcome_of (run W (generatePrivateKey kubelego) s) = Returned (Ok (pem, key)) →
  let r := run W (createUser kubelego) s in
  ∃ registered,
    register_calls (trace_of r) =
      [(mkClient key (LegoURL kubelego),
        mkAccount "" (getContact kubelego) "", registered)] ∧
    ∀ account, registered = Ok account →
      ∃ (m : gmap string bytes) err,
        save_calls (trace_of r) = [(m, err)] ∧
        m !! AcmePrivateKey = Some pem ∧
        m !! AcmeRegistrationUrl = Some (bytes_of_string (Account_URI account)) ∧
        dom m = {[AcmePrivateKey; AcmeRegistrationUrl]}.
Proof.
  intros Hgen r. subst r. unfold createUser. rewrite run_bind.
  pose proof (run_always W _ s _ generatePrivateKey_only_generates) as [Hr Hs].
  destruct (run W (generatePrivateKey kubelego) s) as [[t1 o1] s1].
  cbn in Hgen, Hr, Hs. subst o1.
  match goal with |- context [run W ?p s1] =>
    pose proof (run_always W p s1 (λ t _, ∃ registered,
      register_calls t =
        [(mkClient key (LegoURL kubelego),
          mkAccount "" (getContact kubelego) "", registered)] ∧
      ∀ account, registered = Ok account →
        ∃ (m : gmap string bytes) err,
          save_calls t = [(m, err)] ∧
          m !! AcmePrivateKey = Some pem ∧
          m !! AcmeRegistrationUrl = Some (bytes_of_string (Account_URI account)) ∧
          dom m = {[AcmePrivateKey; AcmeRegistrationUrl]})) as Hrest;
    destruct (run W p s1) as [[t2 o2] s2]
  end.
  unfold trace_of in *. cbn [fst snd] in *.
  unfold register_calls, save_calls in *. rewrite !omap_app, Hr, Hs. cbn [app].
  apply Hrest. clear Hrest.
  assert (∀ uri : bytes,
    let m : gmap string bytes :=
      {[AcmePrivateKey := pem; AcmeRegistrationUrl := uri]} in
    m !! AcmePrivateKey = Some pem ∧ m !! AcmeRegistrationUrl = Some uri ∧
    dom m = {[AcmePrivateKey; AcmeRegistrationUrl]}) as Hm.
  { intros uri m. subst m. split; [|split].
    - apply lookup_insert_eq.
    - rewrite lookup_insert_ne by apply AcmePrivateKey_ne_AcmeRegistrationUrl.
      apply lookup_singleton_eq.
    - by rewrite dom_insert_L, dom_singleton_L. }
  explore.
  all: eexists; split; [reflexivity|]; intros account ?; simplify_eq.
  all: eexists _, _; split; [reflexivity|]; apply Hm.
Qed.

(** ** Validation of the contact *)

Lemma getContact_mailto :
  getContact kubelego = Some ["mailto:" +:+ strings_ToLower (LegoEmail kubelego)].
Proof.
  unfold getContact, fmt_Sprintf. cbn [fmt_verb_s].
  by rewrite append_empty_r.
Qed.

(** C3. [validateUser] fetches the account once.  For every account
    record fetched, the authority's contact list is compared with the
    expected list, the single lower-cased mailto contact, as whole
    sequences in order: when they are equal no update call is made, when
    they differ exactly one update call is made, on the fetched record
    carrying the expected contact list. *)
Theorem validateUser_contact_sync (W : World) (s : WState W) client accountURI :
  let r := run W (validateUser kubelego client accountURI) s in
  let expected : slice string :=
    Some ["mailto:" +:+ strings_ToLower (LegoEmail kubelego)] in
  ∃ fetched,
    getreg_calls (trace_of r) = [(client, accountURI, fetched)] ∧
    ∀ account, fetched = Ok account →
      (Account_Contact account = expected → updatereg_calls (trace_of r) = []) ∧
      (Account_Contact account ≠ expected →
         ∃ updated, updatereg_calls (trace_of r) =
           [(client,
             mkAccount (Account_URI account) expected (Account_other account),
             updated)]).
Proof.
  intros r expected. subst r expected. rewrite <- getContact_mailto.
  apply (run_always W _ s (λ t _, ∃ fetched,
    getreg_calls t = [(client, accountURI, fetched)] ∧
    ∀ account, fetched = Ok account →
      (Account_Contact account = getContact kubelego → updatereg_calls t = []) ∧
      (Account_Contact account ≠ getContact kubelego →
         ∃ updated, updatereg_calls t =
           [(client,
             mkAccount (Account_URI account) (getContact kubelego)
               (Account_other account),
             updated)]))).
  unfold validateUser. intros fetched. cbn.
  destruct fetched as [account|err]; cbn.
  - destruct (reflect_DeepEqual (Account_Contact account) (getContact kubelego))
      eqn:Heq; cbn.
    + apply reflect_DeepEqual_spec in Heq.
      eexists; split; [reflexivity|]. intros ? [= <-]. by split.
    + assert (Account_Contact account ≠ getContact kubelego) as Hne.
      { intros Hc. apply reflect_DeepEqual_spec in Hc. congruence. }
      intros updated. destruct updated; cbn.
      all: eexists; split; [reflexivity|]; intros ? [= <-]; split; [done|].
      all: intros _; by eexists.
  - eexists; split; [reflexivity|]. by intros ? [=].
Qed.

(** ** Key generation *)

(** C4. With the EC family configured (any key type other than RSA), a
    key size outside 224, 256, 384 and 521, such as 512, makes
    [generatePrivateKey] the very program it is for size 384: one call
    of the generator, on curve P-384. *)
Theorem generatePrivateKey_unsupported_size_is_384 (size : Z) :
  LegoKeyType kubelego ≠ KeyTypeRsa →
  size ≠ 224 → size ≠ 256 → size ≠ 384 → size ≠ 521 →
  generatePrivateKey (with_key_size kubelego size)
    = generatePrivateKey (with_key_size kubelego 384) ∧
  ∀ (W : World) (s : WState W),
    ∃ generated,
      keygen_calls (trace_of (run W (generatePrivateKey (with_key_size kubelego size)) s))
        = [(inr P384, generated)].
Proof.
  intros Hec H224 H256 H384 H521.
  assert (generatePrivateKey (with_key_size kubelego size)
          = generatePrivateKey (with_key_size kubelego 384)) as Heq.
  { unfold generatePrivateKey. cbn.
    destruct (decide (LegoKeyType kubelego = KeyTypeRsa)); [done|].
    repeat (destruct (decide (size = _)); [done|]). done. }
  split; [done|]. intros W s. rewrite Heq.
  apply (run_always W _ s (λ t _, ∃ generated,
    keygen_calls t = [(inr P384, generated)])).
  unfold generatePrivateKey. cbn.
  destruct (decide (LegoKeyType kubelego = KeyTypeRsa)); [done|].
  explore; try done; by eexists.
Qed.

(** C8. In every run, for either key family, [generatePrivateKey] calls
    the generator of the configured family exactly once, and whenever the
    generator hands back a key it returns that key with a PEM encoding
    that decodes to one block, whose type tag is the family's
    ("RSA PRIVATE KEY" or "EC PRIVATE KEY") and whose payload the
    family's standard parse routine reads back as the generated key.
    The only other result is the generator's own error. *)
Theorem generatePrivateKey_pem_round_trip (W : World) (s : WState W) :
  let r := run W (generatePrivateKey kubelego) s in
  let f := configured_family kubelego in
  ∃ request generated,
    keygen_calls (trace_of r) = [(request, generated)] ∧
    (f = FamilyRsa → request = inl (LegoKeySize kubelego)) ∧
    (f = FamilyEc → ∃ c, request = inr c) ∧
    match generated with
    | Ok key =>
        ∃ pem block,
          outcome_of r = Returned (Ok (pem, key)) ∧
          pem_Decode pem = Some (block, []) ∧
          Block_Type block = family_tag f ∧
          family_parse f (Block_Bytes block) = Ok key
    | Err err => outcome_of r = Returned (Err err)
    end.
Proof.
  cbn zeta.
  apply (run_always W _ s (λ t o, ∃ request generated,
    keygen_calls t = [(request, generated)] ∧
    (configured_family kubelego = FamilyRsa →
       request = inl (LegoKeySize kubelego)) ∧
    (configured_family kubelego = FamilyEc → ∃ c, request = inr c) ∧
    match generated with
    | Ok key =>
        ∃ pem block,
          o = Returned (Ok (pem, key)) ∧
          pem_Decode pem = Some (block, []) ∧
          Block_Type block = family_tag (configured_family kubelego) ∧
          family_parse (configured_family kubelego) (Block_Bytes block) = Ok key
    | Err err => o = Returned (Err err)
    end)).
  unfold generatePrivateKey, configured_family.
  destruct (decide (LegoKeyType kubelego = KeyTypeRsa)) as [Hrsa|Hec]; cbn.
  - intros [k|err]; cbn.
    + eexists _, _. split; [reflexivity|]. split; [done|]. split; [done|].
      eexists _, _. split; [reflexivity|].
      split; [apply pem_Decode_EncodeToMemory; by left|].
      split; [done|]. cbn. by rewrite x509_ParsePKCS1_Marshal.
    + eexists _, _. split; [reflexivity|]. by split.
  - assert (∀ c, always
      (call (ecdsa_GenerateKey c) ≫= λ r : result ecdsa_PrivateKey,
         match r return prog (result (bytes * crypto_Signer)) with
         | Ok ecpk =>
             match x509_MarshalECPrivateKey ecpk with
             | Ok b =>
                 mret (Ok (pem_EncodeToMemory (mkBlock "EC PRIVATE KEY" ∅ b),
                           SignerEcdsa ecpk))
             | Err err => mret (Err err)
             end
         | Err err => mret (Err err)
         end)
      (λ t o, ∃ request generated,
         keygen_calls t = [(request, generated)] ∧
         (FamilyEc = FamilyRsa → request = inl (LegoKeySize kubelego)) ∧
         (FamilyEc = FamilyEc → ∃ c, request = inr c) ∧
         match generated with
         | Ok key =>
             ∃ pem block,
               o = Returned (Ok (pem, key)) ∧
               pem_Decode pem = Some (block, []) ∧
               Block_Type block = "EC PRIVATE KEY" ∧
               family_parse FamilyEc (Block_Bytes block) = Ok key
         | Err err => o = Returned (Err err)
         end)) as Hcurve.
    { intros c [k|err]; cbn.
      - pose proof (x509_MarshalEC_Ok k) as Hok.
        destruct (x509_MarshalECPrivateKey k) as [b|err] eqn:Hb; [|done]. cbn.
        eexists _, _. split; [reflexivity|]. split; [done|].
        split; [by eexists|].
        eexists _, _. split; [reflexivity|].
        split; [apply pem_Decode_EncodeToMemory; by right|].
        split; [done|]. cbn. by rewrite (x509_ParseEC_Marshal k b Hb).
      - eexists _, _. split; [reflexivity|]. split; [done|].
        split; [by eexists|]. done. }
    repeat case_decide; apply Hcurve.
Qed.

(** ** Loading the stored account *)


(** C1, on the code. When the private-key entry of the stored mapping is
    not a well-formed PEM block, [getUser] makes no call to the directory
    client, and it does not return an error either: it panics on the nil
    block. *)
Theorem getUser_malformed_pem_panics (W : World) (s : WState W)
    userData privateKeyData :
  let r := run W (getUser kubelego) s in
  load_calls (trace_of r) = [Ok userData] →
  userData !! AcmePrivateKey = Some privateKeyData →
  pem_Decode privateKeyData = None →
  network_calls (trace_of r) = [] ∧
  ∃ msg, outcome_of r = Panicked msg.
Proof.
  intros r Hload Hkey Hpem. subst r. split.
  - by pose proof (run_always W _ s _ getUser_quiet) as (_ & _ & ?).
  - revert Hload.
    apply (run_always W _ s (λ t o, load_calls t = [Ok userData] →
      ∃ msg, o = Panicked msg)).
    unfold getUser. first_answer_is (Ok userData).
    cbn. rewrite Hkey, Hpem. cbn. by eexists.
Qed.

(** C5, on the code. With the EC family configured, whatever mapping a
    successful [createUser] has persisted, a later [getUser] that reads
    this mapping back from the store returns an error: the stored SEC 1
    key does not go through the PKCS#1 parse routine. *)
Theorem getUser_rejects_stored_ec_key (W : World) (s : WState W) client account :
  LegoKeyType kubelego ≠ KeyTypeRsa →
  let r := run W (createUser kubelego) s in
  outcome_of r = Returned (Ok (client, account)) →
  ∃ saved,
    save_calls (trace_of r) = [(saved, None)] ∧
    ∀ (W' : World) (s' : WState W'),
      load_calls (trace_of (run W' (getUser kubelego) s')) = [Ok saved] →
      ∃ err, outcome_of (run W' (getUser kubelego) s') = Returned (Err err).
Proof.
  intros Hec r. subst r.
  assert (∀ (k : ecdsa_PrivateKey) (b uri : bytes) (W' : World) (s' : WState W'),
    x509_MarshalECPrivateKey k = Ok b →
    load_calls (trace_of (run W' (getUser kubelego) s'))
      = [Ok {[AcmePrivateKey := pem_EncodeToMemory (mkBlock "EC PRIVATE KEY" ∅ b);
              AcmeRegistrationUrl := uri]}] →
    ∃ err, outcome_of (run W' (getUser kubelego) s') = Returned (Err err))
    as Hload.
  { intros k b uri W' s' Hb.
    apply (run_always W' _ s' (λ t o, load_calls t = [Ok _] →
      ∃ err, o = Returned (Err err))).
    unfold getUser. first_answer_is
      (Ok ({[AcmePrivateKey := pem_EncodeToMemory (mkBlock "EC PRIVATE KEY" ∅ b);
             AcmeRegistrationUrl := uri]} : gmap string bytes)).
    cbn. rewrite lookup_insert_eq.
    rewrite pem_Decode_EncodeToMemory by (by right). cbn.
    pose proof (x509_ParsePKCS1_MarshalEC k b Hb) as Hno.
    destruct (x509_ParsePKCS1PrivateKey b); [done|]. cbn. by eexists. }
  apply (run_always W _ s (λ t o, o = Returned (Ok (client, account)) →
    ∃ saved, save_calls t = [(saved, None)] ∧
      ∀ (W' : World) (s' : WState W'),
        load_calls (trace_of (run W' (getUser kubelego) s')) = [Ok saved] →
        ∃ err, outcome_of (run W' (getUser kubelego) s') = Returned (Err err))).
  unfold createUser, generatePrivateKey.
  destruct (decide (LegoKeyType kubelego = KeyTypeRsa)); [done|].
  explore; try done.
  all: intros _; eexists; split; [reflexivity|]; intros W' s'; by eapply Hload.
Qed.

(** X1. With the RSA family the stored key does come back: a later [getUser]
    that reads the persisted mapping returns the client [createUser]
    built, on the same key, and the URI the authority assigned. *)
Lemma getUser_loads_stored_rsa_key (W : World) (s : WState W) client account :
  LegoKeyType kubelego = KeyTypeRsa →
  let r := run W (createUser kubelego) s in
  outcome_of r = Returned (Ok (client, account)) →
  ∃ saved,
    save_calls (trace_of r) = [(saved, None)] ∧
    ∀ (W' : World) (s' : WState W'),
      load_calls (trace_of (run W' (getUser kubelego) s')) = [Ok saved] →
      outcome_of (run W' (getUser kubelego) s')
        = Returned (Ok (client, Account_URI account)).
Proof.
  intros Hrsa r. subst r.
  assert (∀ (k : rsa_PrivateKey) (uri : string) (W' : World) (s' : WState W'),
    load_calls (trace_of (run W' (getUser kubelego) s'))
      = [Ok {[AcmePrivateKey := pem_EncodeToMemory
                (mkBlock "RSA PRIVATE KEY" ∅ (x509_MarshalPKCS1PrivateKey k));
              AcmeRegistrationUrl := bytes_of_string uri]}] →
    outcome_of (run W' (getUser kubelego) s')
      = Returned (Ok (mkClient (SignerRsa k) (LegoURL kubelego), uri))) as Hload.
  { intros k uri W' s'.
    apply (run_always W' _ s' (λ t o, load_calls t = [Ok _] →
      o = Returned (Ok (mkClient (SignerRsa k) (LegoURL kubelego), uri)))).
    unfold getUser. first_answer_is
      (Ok ({[AcmePrivateKey := pem_EncodeToMemory
               (mkBlock "RSA PRIVATE KEY" ∅ (x509_MarshalPKCS1PrivateKey k));
             AcmeRegistrationUrl := bytes_of_string uri]} : gmap string bytes)).
    cbn. rewrite lookup_insert_eq.
    rewrite pem_Decode_EncodeToMemory by (by left). cbn.
    rewrite x509_ParsePKCS1_Marshal. cbn.
    rewrite lookup_insert_ne by apply AcmePrivateKey_ne_AcmeRegistrationUrl.
    rewrite lookup_singleton_eq. cbn.
    unfold string_of_bytes, bytes_of_string.
    by rewrite String.string_of_list_byte_of_string. }
  apply (run_always W _ s (λ t o, o = Returned (Ok (client, account)) →
    ∃ saved, save_calls t = [(saved, None)] ∧
      ∀ (W' : World) (s' : WState W'),
        load_calls (trace_of (run W' (getUser kubelego) s')) = [Ok saved] →
        outcome_of (run W' (getUser kubelego) s')
          = Returned (Ok (client, Account_URI account)))).
  unfold createUser, generatePrivateKey.
  destruct (decide (LegoKeyType kubelego = KeyTypeRsa)); [|done].
  explore; try done.
  all: intros [= <- <-]; eexists; split; [reflexivity|]; intros W' s';
    apply Hload.
Qed.

(** ** Errors of the directory calls *)

(** C9, as amended. An error of the fetch call [GetReg] is surfaced
    wrapped with the attempted account URI and the underlying cause; an
    error of the update call [UpdateReg] is surfaced wrapped with the
    expected contact list and the underlying cause; an error of the
    register call is surfaced as it is. *)
Theorem directory_errors_as_surfaced (W : World) (s : WState W)
    client accountURI cause :
  (let r := run W (validateUser kubelego client accountURI) s in
   (getreg_calls (trace_of r) = [(client, accountURI, Err cause)] →
    ∃ e, outcome_of r = Returned (Err e) ∧
      Error e = "failed to retrieve ACME account for URI '" +:+ accountURI
                  +:+ "': " +:+ Error cause ∧
      wraps accountURI cause e = true) ∧
   (∀ c a, updatereg_calls (trace_of r) = [(c, a, Err cause)] →
    ∃ e, outcome_of r = Returned (Err e) ∧
      Error e = "failed to update ACME account's contact to '[mailto:"
                  +:+ strings_ToLower (LegoEmail kubelego) +:+ "]': "
                  +:+ Error cause ∧
      strings_Contains (Error e) (Error cause) = true)) ∧
  (let r := run W (createUser kubelego) s in
   ∀ c a, (c, a, Err cause) ∈ register_calls (trace_of r) →
   outcome_of r = Returned (Err cause)).
Proof.
  split; [split|].
  - apply (run_always W _ s (λ t o,
      getreg_calls t = [(client, accountURI, Err cause)] →
      ∃ e, o = Returned (Err e) ∧ Error e = _ ∧ wraps accountURI cause e = true)).
    unfold validateUser. explore; try done.
    intros [= <-]. eexists. split; [reflexivity|].
    assert (Error (fmt_Errorf "failed to retrieve ACME account for URI '%s': %s"
                     [ArgString accountURI; ArgError err])
            = "failed to retrieve ACME account for URI '" +:+ accountURI
                +:+ "': " +:+ Error err) as Hmsg.
    { unfold fmt_Errorf, fmt_Sprintf. cbn [fmt_verb_s Error].
      by rewrite append_empty_r. }
    unfold wraps. rewrite !Hmsg.
    split; [done|]. apply andb_true_iff. split.
    + apply strings_Contains_skip, strings_Contains_here.
    + do 2 apply strings_Contains_skip. apply strings_Contains_end.
  - apply (run_always W _ s (λ t o,
      ∀ c a, updatereg_calls t = [(c, a, Err cause)] →
      ∃ e, o = Returned (Err e) ∧ Error e = _ ∧
           strings_Contains (Error e) (Error cause) = true)).
    unfold validateUser. explore; try done.
    intros ? ? [= _ _ <-]. eexists. split; [reflexivity|].
    assert (Error (fmt_Errorf "failed to update ACME account's contact to '%s': %s"
                     [ArgStrings (getContact kubelego); ArgError err])
            = "failed to update ACME account's contact to '[mailto:"
                +:+ strings_ToLower (LegoEmail kubelego) +:+ "]': "
                +:+ Error err) as ->.
    { rewrite getContact_mailto.
      unfold fmt_Errorf, fmt_Sprintf. cbn [fmt_verb_s default join_space Error].
      by rewrite !append_assoc, append_empty_r. }
    split; [done|].
    do 2 apply strings_Contains_skip. apply strings_Contains_end.
  - intros r c a Hreg.
    by destruct (createUser_register_error_no_write_aux W s c a cause Hreg).
Qed.

End Claims.

(** * Further properties of the methods *)

(** ** More of the trace: log lines and terms-of-service prompts *)
Section Reading.
Context {keys : CryptoKeys}.

Definition log_call (ev : event) : option string :=
  match ev with
  | Ev e x =>
      match e in Effect X return X → option string with
      | Log_Infof msg => λ _, Some msg
      | _ => λ _, None
      end x
  end.

(** The URL a register call prompted with, when it did. *)
Definition tos_prompt (ev : event) : option string :=
  match ev with
  | Ev e x =>
      match e in Effect X return X → option string with
      | Client_Register _ _ => λ reply,
          match reply with
          | RegisterPrompt tosURL _ => Some tosURL
          | RegisterDone _ => None
          end
      | _ => λ _, None
      end x
  end.

Definition log_lines : list event → list string := omap log_call.
Definition tos_prompts : list event → list string := omap tos_prompt.

End Reading.

Ltac read_more :=
  unfold log_lines, tos_prompts in *; read_trace.

Section Further.
Context {consts : KubeLegoConst} {keys : CryptoKeys} {golib : GoStdlib}.
Variable kubelego : KubeLego.

(** ** [getUser] *)

(** X2. In every run the one call of [getUser] is the read of the store.
    A failed read is returned as it is; a mapping without the private-key
    entry gives the error that names the missing key. *)
Theorem getUser_reads_once (W : World) (s : WState W) :
  let r := run W (getUser kubelego) s in
  (∃ loaded, load_calls (trace_of r) = [loaded] ∧ length (trace_of r) = 1%nat) ∧
  (∀ err, load_calls (trace_of r) = [Err err] → outcome_of r = Returned (Err err)) ∧
  (∀ userData, load_calls (trace_of r) = [Ok userData] →
     userData !! AcmePrivateKey = None →
     outcome_of r = Returned (Err (errorString
       ("could not find acme private key with key '" +:+ AcmePrivateKey +:+ "'")))).
Proof.
  cbn zeta. split; [|split].
  - apply (run_always W _ s (λ t _, ∃ loaded,
      load_calls t = [loaded] ∧ length t = 1%nat)).
    unfold getUser. explore; by eexists.
  - intros err.
    apply (run_always W _ s (λ t o, load_calls t = [Err err] →
      o = Returned (Err err))).
    unfold getUser. first_answer_is (@Err (gmap string bytes) err). done.
  - intros userData Hload Hkey. revert Hload.
    apply (run_always W _ s (λ t o, load_calls t = [Ok userData] →
      o = Returned (Err _))).
    unfold getUser. first_answer_is (Ok userData).
    cbn. by rewrite Hkey.
Qed.

(** X3. With a private key that decodes, a direct registration-URI entry is
    returned as the account URI, whatever the legacy entry holds, whatever
    the type tag of the PEM block and whatever follows the block. *)
Theorem getUser_direct_uri (W : World) (s : WState W)
    userData privateKeyData block rest privateKey accountURIBytes :
  load_calls (trace_of (run W (getUser kubelego) s)) = [Ok userData] →
  userData !! AcmePrivateKey = Some privateKeyData →
  pem_Decode privateKeyData = Some (block, rest) →
  x509_ParsePKCS1PrivateKey (Block_Bytes block) = Ok privateKey →
  userData !! AcmeRegistrationUrl = Some accountURIBytes →
  outcome_of (run W (getUser kubelego) s)
    = Returned (Ok (mkClient (SignerRsa privateKey) (LegoURL kubelego),
                    string_of_bytes accountURIBytes)).
Proof.
  intros Hload Hkey Hpem Hparse Hurl. revert Hload.
  apply (run_always W _ s (λ t o, load_calls t = [Ok userData] →
    o = Returned (Ok _))).
  unfold getUser. first_answer_is (Ok userData).
  cbn. by rewrite Hkey, Hpem, Hparse, Hurl.
Qed.

(** X4. The failures of [getUser] past the PEM block: a payload that does not
    parse surfaces the parse error as it is; with a parsed key and no
    direct URI entry, a missing legacy entry gives the error of the missing
    account URI and an unreadable legacy blob surfaces the JSON error as
    it is. *)
Theorem getUser_decode_errors (W : World) (s : WState W)
    userData privateKeyData block rest :
  let r := run W (getUser kubelego) s in
  load_calls (trace_of r) = [Ok userData] →
  userData !! AcmePrivateKey = Some privateKeyData →
  pem_Decode privateKeyData = Some (block, rest) →
  (∀ err, x509_ParsePKCS1PrivateKey (Block_Bytes block) = Err err →
     outcome_of r = Returned (Err err)) ∧
  (∀ privateKey, x509_ParsePKCS1PrivateKey (Block_Bytes block) = Ok privateKey →
     userData !! AcmeRegistrationUrl = None →
     (userData !! AcmeRegistration = None →
        outcome_of r = Returned (Err (errorString
          "could not find an ACME account URI in the account secret"))) ∧
     (∀ regData err, userData !! AcmeRegistration = Some regData →
        json_Unmarshal regData = Err err →
        outcome_of r = Returned (Err err))).
Proof.
  intros r Hload Hkey Hpem. subst r.
  split; [|intros privateKey Hparse Hurl; split].
  - intros err Hparse. revert Hload.
    apply (run_always W _ s (λ t o, load_calls t = [Ok userData] →
      o = Returned (Err err))).
    unfold getUser. first_answer_is (Ok userData).
    cbn. by rewrite Hkey, Hpem, Hparse.
  - intros Hreg. revert Hload.
    apply (run_always W _ s (λ t o, load_calls t = [Ok userData] →
      o = Returned (Err _))).
    unfold getUser. first_answer_is (Ok userData).
    cbn. by rewrite Hkey, Hpem, Hparse, Hurl, Hreg.
  - intros regData err Hreg Hjson. revert Hload.
    apply (run_always W _ s (λ t o, load_calls t = [Ok userData] →
      o = Returned (Err err))).
    unfold getUser. first_answer_is (Ok userData).
    cbn. by rewrite Hkey, Hpem, Hparse, Hurl, Hreg, Hjson.
Qed.

(** X5. [getUser] panics in one situation only: the store has answered with
    a mapping whose private-key entry holds no PEM block.  The other
    methods never panic. *)
Theorem panics_only_on_missing_pem_block (W : World) (s : WState W) :
  (∀ msg, outcome_of (run W (getUser kubelego) s) = Panicked msg →
     ∃ userData privateKeyData,
       load_calls (trace_of (run W (getUser kubelego) s)) = [Ok userData] ∧
       userData !! AcmePrivateKey = Some privateKeyData ∧
       pem_Decode privateKeyData = None) ∧
  (∃ r, outcome_of (run W (generatePrivateKey kubelego) s) = Returned r) ∧
  (∃ r, outcome_of (run W (createUser kubelego) s) = Returned r) ∧
  (∀ client accountURI,
     ∃ r, outcome_of (run W (validateUser kubelego client accountURI) s) = Returned r).
Proof.
  split; [|split; [|split]].
  - intros msg.
    apply (run_always W _ s (λ t o, o = Panicked msg →
      ∃ userData privateKeyData,
        load_calls t = [Ok userData] ∧
        userData !! AcmePrivateKey = Some privateKeyData ∧
        pem_Decode privateKeyData = None)).
    unfold getUser. explore; try done.
    intros _. by eexists _, _.
  - apply (run_always W _ s (λ _ o, ∃ r, o = Returned r)).
    unfold generatePrivateKey. explore; by eexists.
  - apply (run_always W _ s (λ _ o, ∃ r, o = Returned r)).
    unfold createUser, generatePrivateKey. explore; by eexists.
  - intros client accountURI.
    apply (run_always W _ s (λ _ o, ∃ r, o = Returned r)).
    unfold validateUser. explore; by eexists.
Qed.

(** ** [generatePrivateKey] *)

(** X6. Every run of [generatePrivateKey] makes one call, to a key generator,
    and nothing else.  The RSA family asks for the configured bit length
    as it is; the EC family asks for the curve of the configured size
    when that is 224, 256, 384 or 521.  An error of the generator is
    returned as it is. *)
Theorem generatePrivateKey_generator_call (W : World) (s : WState W) :
  let r := run W (generatePrivateKey kubelego) s in
  let size := LegoKeySize kubelego in
  ∃ request generated,
    keygen_calls (trace_of r) = [(request, generated)] ∧
    length (trace_of r) = 1%nat ∧
    (LegoKeyType kubelego = KeyTypeRsa → request = inl size) ∧
    (LegoKeyType kubelego ≠ KeyTypeRsa →
       (size = 224 → request = inr P224) ∧
       (size = 256 → request = inr P256) ∧
       (size = 384 → request = inr P384) ∧
       (size = 521 → request = inr P521)) ∧
    (∀ err, generated = Err err → outcome_of r = Returned (Err err)).
Proof.
  cbn zeta.
  apply (run_always W _ s (λ t o, ∃ request generated,
    keygen_calls t = [(request, generated)] ∧
    length t = 1%nat ∧
    (LegoKeyType kubelego = KeyTypeRsa → request = inl (LegoKeySize kubelego)) ∧
    (LegoKeyType kubelego ≠ KeyTypeRsa →
       (LegoKeySize kubelego = 224 → request = inr P224) ∧
       (LegoKeySize kubelego = 256 → request = inr P256) ∧
       (LegoKeySize kubelego = 384 → request = inr P384) ∧
       (LegoKeySize kubelego = 521 → request = inr P521)) ∧
    (∀ err, generated = Err err → o = Returned (Err err)))).
  unfold generatePrivateKey. explore.
  all: eexists _, _; split; [reflexivity|]; split; [reflexivity|].
  all: repeat split; intros; simplify_eq; try done; try lia.
Qed.

(** ** [createUser] *)

(** X7. When key generation fails, [createUser] returns the generator's error
    and has made no other call: nothing is registered, nothing is
    written. *)
Theorem createUser_keygen_failure (W : World) (s : WState W) request err :
  let r := run W (createUser kubelego) s in
  keygen_calls (trace_of r) = [(request, Err err)] →
  outcome_of r = Returned (Err err) ∧
  register_calls (trace_of r) = [] ∧
  save_calls (trace_of r) = [] ∧
  length (trace_of r) = 1%nat.
Proof.
  intros r. subst r.
  apply (run_always W _ s (λ t o, keygen_calls t = [(request, Err err)] →
    o = Returned (Err err) ∧ register_calls t = [] ∧ save_calls t = [] ∧
    length t = 1%nat)).
  unfold createUser, generatePrivateKey. explore.
  all: read_trace; intros Hk; by simplify_eq.
Qed.

(** X8. After a successful registration the result of [createUser] follows
    the store write: its error when it fails, although the account now
    exists at the authority; otherwise the client that registered and the
    account the authority returned. *)
Theorem createUser_result_follows_store_write (W : World) (s : WState W)
    client sent account saved written :
  let r := run W (createUser kubelego) s in
  register_calls (trace_of r) = [(client, sent, Ok account)] →
  save_calls (trace_of r) = [(saved, written)] →
  outcome_of r = Returned (match written with
                           | Some err => Err err
                           | None => Ok (client, account)
                           end).
Proof.
  intros r. subst r.
  apply (run_always W _ s (λ t o,
    register_calls t = [(client, sent, Ok account)] →
    save_calls t = [(saved, written)] →
    o = Returned (match written with
                  | Some err => Err err
                  | None => Ok (client, account)
                  end))).
  unfold createUser, generatePrivateKey. explore.
  all: read_trace; intros Hr Hs; by simplify_eq.
Qed.

(** X9. [acceptTos] agrees to any terms of service, after one log line that
    names their URL; and in every run of [createUser] each URL the
    authority prompts with is named in such a log line. *)
Theorem acceptTos_agrees_and_logs (W : World) (s : WState W) :
  (∀ tos,
     let r := run W (acceptTos tos) s in
     outcome_of r = Returned true ∧
     log_lines (trace_of r) =
       ["if you don't accept the TOS (" +:+ tos
          +:+ ") please exit the program now"]) ∧
  (∀ tos, tos ∈ tos_prompts (trace_of (run W (createUser kubelego) s)) →
     "if you don't accept the TOS (" +:+ tos +:+ ") please exit the program now"
       ∈ log_lines (trace_of (run W (createUser kubelego) s))).
Proof.
  assert (∀ tos,
    fmt_Sprintf "if you don't accept the TOS (%s) please exit the program now"
      [ArgString tos]
    = "if you don't accept the TOS (" +:+ tos +:+ ") please exit the program now")
    as Hline by (intros tos; reflexivity).
  split.
  - intros tos. cbn zeta.
    apply (run_always W _ s (λ t o, o = Returned true ∧ log_lines t = [_])).
    unfold acceptTos. explore. by rewrite Hline.
  - intros tos.
    apply (run_always W _ s (λ t _, tos ∈ tos_prompts t →
      "if you don't accept the TOS (" +:+ tos +:+ ") please exit the program now"
        ∈ log_lines t)).
    unfold createUser, generatePrivateKey, Register, acceptTos. explore.
    all: read_more; rewrite ?Hline, ?elem_of_cons, ?elem_of_nil.
    all: intros Hin; decompose [or] Hin; simplify_eq; try done; by left.
Qed.

(** ** [validateUser] *)

(** X10. What [validateUser] returns on success: the fetched record itself
    when its contact is the expected one, after that single call; the
    record the update call returned otherwise, after one log line that
    names the new contact. *)
Theorem validateUser_returns (W : World) (s : WState W) client accountURI :
  let r := run W (validateUser kubelego client accountURI) s in
  (∀ account, getreg_calls (trace_of r) = [(client, accountURI, Ok account)] →
     Account_Contact account = getContact kubelego →
     outcome_of r = Returned (Ok account) ∧ length (trace_of r) = 1%nat) ∧
  (∀ c sent updated, updatereg_calls (trace_of r) = [(c, sent, Ok updated)] →
     outcome_of r = Returned (Ok updated) ∧
     log_lines (trace_of r) =
       ["updated ACME account's contact to '[mailto:"
          +:+ strings_ToLower (LegoEmail kubelego) +:+ "]'"]).
Proof.
  assert (fmt_Sprintf "updated ACME account's contact to '%s'"
            [ArgStrings (getContact kubelego)]
          = "updated ACME account's contact to '[mailto:"
              +:+ strings_ToLower (LegoEmail kubelego) +:+ "]'") as Hline.
  { rewrite getContact_mailto. unfold fmt_Sprintf.
    cbn [fmt_verb_s default join_space].
    by rewrite !append_assoc. }
  cbn zeta. split.
  - intros account Hget Hcontact. revert Hget.
    apply (run_always W _ s (λ t o,
      getreg_calls t = [(client, accountURI, Ok account)] →
      o = Returned (Ok account) ∧ length t = 1%nat)).
    unfold validateUser. first_answer_is (Ok account).
    apply reflect_DeepEqual_spec in Hcontact. cbn. by rewrite Hcontact.
  - apply (run_always W _ s (λ t o, ∀ c sent updated,
      updatereg_calls t = [(c, sent, Ok updated)] →
      o = Returned (Ok updated) ∧ log_lines t = [_])).
    unfold validateUser. explore; try done.
    intros ? ? ? [= _ _ <-]. by rewrite Hline.
Qed.

(** X11. A fetched record whose contact list is nil, empty or longer than one
    entry is always updated: one update call, on that record, carrying
    the single expected contact. *)
Theorem validateUser_replaces_odd_contact_lists (W : World) (s : WState W)
    client accountURI account :
  let r := run W (validateUser kubelego client accountURI) s in
  getreg_calls (trace_of r) = [(client, accountURI, Ok account)] →
  (Account_Contact account = None ∨
   ∃ l, Account_Contact account = Some l ∧ length l ≠ 1%nat) →
  ∃ updated,
    updatereg_calls (trace_of r) =
      [(client,
        mkAccount (Account_URI account)
          (Some ["mailto:" +:+ strings_ToLower (LegoEmail kubelego)])
          (Account_other account),
        updated)].
Proof.
  intros r Hget Hodd. subst r. rewrite <- getContact_mailto. revert Hget.
  assert (reflect_DeepEqual (Account_Contact account) (getContact kubelego) = false)
    as Hne.
  { destruct (reflect_DeepEqual _ _) eqn:Heq; [|done].
    apply reflect_DeepEqual_spec in Heq. rewrite getContact_mailto in Heq.
    destruct Hodd as [Hnil | (l & Hl & Hlen)]; [congruence|].
    rewrite Hl in Heq. by simplify_eq. }
  apply (run_always W _ s (λ t _,
    getreg_calls t = [(client, accountURI, Ok account)] →
    ∃ updated, updatereg_calls t = [(client, _, updated)])).
  unfold validateUser. first_answer_is (Ok account).
  cbn. rewrite Hne. cbn. intros updated. destruct updated; cbn; by eexists.
Qed.

(** X12. The calls of [validateUser] in any run: one fetch, at most one
    update, and never a registration, a key generation or an access to
    the account store. *)
Theorem validateUser_call_budget (W : World) (s : WState W) client accountURI :
  let t := trace_of (run W (validateUser kubelego client accountURI) s) in
  length (getreg_calls t) = 1%nat ∧
  (length (updatereg_calls t) ≤ 1)%nat ∧
  register_calls t = [] ∧ keygen_calls t = [] ∧
  load_calls t = [] ∧ save_calls t = [].
Proof.
  cbn zeta.
  apply (run_always W _ s (λ t _,
    length (getreg_calls t) = 1%nat ∧ (length (updatereg_calls t) ≤ 1)%nat ∧
    register_calls t = [] ∧ keygen_calls t = [] ∧
    load_calls t = [] ∧ save_calls t = [])).
  unfold validateUser. explore.
  all: read_trace; repeat split; try done; lia.
Qed.

(** X13. Validation is idempotent against an authority that keeps what it is
    sent: the record of an update call carries the expected contact, so a
    later run that fetches this record makes no update call and returns
    it. *)
Theorem validateUser_idempotent (W W' : World) (s : WState W) (s' : WState W')
    client accountURI client' accountURI' c sent updated :
  let first := run W (validateUser kubelego client accountURI) s in
  let second := run W' (validateUser kubelego client' accountURI') s' in
  updatereg_calls (trace_of first) = [(c, sent, updated)] →
  getreg_calls (trace_of second) = [(client', accountURI', Ok sent)] →
  updatereg_calls (trace_of second) = [] ∧
  outcome_of second = Returned (Ok sent).
Proof.
  intros first second Hupd Hget. subst first second.
  assert (Account_Contact sent = getContact kubelego) as Hsent.
  { revert Hupd.
    apply (run_always W _ s (λ t _, updatereg_calls t = [(c, sent, updated)] →
      Account_Contact sent = getContact kubelego)).
    unfold validateUser. explore; try done.
    all: by intros [= _ <- _]. }
  revert Hget.
  apply (run_always W' _ s' (λ t o,
    getreg_calls t = [(client', accountURI', Ok sent)] →
    updatereg_calls t = [] ∧ o = Returned (Ok sent))).
  unfold validateUser. first_answer_is (Ok sent).
  apply reflect_DeepEqual_spec in Hsent. cbn. by rewrite Hsent.
Qed.

End Further.

(** * A reference implementation of the interfaces

    Stand-ins for the library routines, small enough to compute with, on
    which the contracts of [GoStdlib] hold; they are not Go's encodings.
    The theorems above do not depend on them. *)
Module Sample.

Inductive key_type : Type := key_rsa | key_ec.

Global Instance key_type_eq_dec : EqDecision key_type.
Proof. solve_decision. Defined.

Definition consts : KubeLegoConst := {|
  KeyType := key_type;
  KeyTypeRsa := key_rsa;
  AcmePrivateKey := "acme-private-key";
  AcmeRegistrationUrl := "acme-registration-url";
  AcmeRegistration := "acme-registration";
  AcmePrivateKey_ne_AcmeRegistrationUrl := ltac:(done)
|}.

(** [strings.ToLower] on ASCII text *)
Definition lower_ascii (c : ascii) : ascii :=
  let n := N_of_ascii c in
  if ((65 <=? n) && (n <=? 90))%N then ascii_of_N (n + 32) else c.

Fixpoint ToLower (s : string) : string :=
  match s with
  | EmptyString => EmptyString
  | String c s' => String (lower_ascii c) (ToLower s')
  end.

(** Keys: the private material, and for EC the curve. *)
Definition rsa_key : Type := bytes.
Definition ec_key : Type := elliptic_Curve * bytes.

Definition keys : CryptoKeys := {|
  rsa_PrivateKey := rsa_key;
  ecdsa_PrivateKey := ec_key
|}.

#[local] Existing Instance consts.
#[local] Existing Instance keys.

(** Hexadecimal text stands in for base64. *)
Definition hex_digit (n : N) : byte :=
  default x30 (Byte.of_N (if (n <? 10)%N then 48 + n else 87 + n)).

Definition hex_value (b : byte) : option N :=
  let n := Byte.to_N b in
  if ((48 <=? n) && (n <=? 57))%N then Some (n - 48)%N
  else if ((97 <=? n) && (n <=? 102))%N then Some (n - 87)%N
  else None.

Fixpoint hex (l : bytes) : bytes :=
  match l with
  | [] => []
  | b :: l' =>
      hex_digit (Byte.to_N b / 16) :: hex_digit (Byte.to_N b mod 16) :: hex l'
  end.

(** The longest run of digit pairs at the front, decoded, and what follows. *)
Fixpoint unhex (l : bytes) : bytes * bytes :=
  match l with
  | hi :: lo :: l' =>
      match hex_value hi, hex_value lo with
      | Some h, Some d =>
          match Byte.of_N (16 * h + d) with
          | Some b => let '(body, rest) := unhex l' in (b :: body, rest)
          | None => ([], l)
          end
      | _, _ => ([], l)
      end
  | _ => ([], l)
  end.

Fixpoint strip_prefix (p l : bytes) : option bytes :=
  match p, l with
  | [], _ => Some l
  | a :: p', b :: l' => if decide (a = b) then strip_prefix p' l' else None
  | _ :: _, [] => None
  end.

Definition pem_begin (t : string) : bytes :=
  bytes_of_string ("-----BEGIN " +:+ t +:+ "-----") ++ [x0a].
Definition pem_end (t : string) : bytes :=
  x0a :: bytes_of_string ("-----END " +:+ t +:+ "-----") ++ [x0a].

Definition EncodeToMemory (b : pem_Block) : bytes :=
  pem_begin (Block_Type b) ++ hex (Block_Bytes b) ++ pem_end (Block_Type b).

Definition decode_as (t : string) (data : bytes) : option (pem_Block * bytes) :=
  body ← strip_prefix (pem_begin t) data;
  let '(payload, rest) := unhex body in
  rest' ← strip_prefix (pem_end t) rest;
  Some (mkBlock t ∅ payload, rest').

Definition Decode (data : bytes) : option (pem_Block * bytes) :=
  match decode_as "RSA PRIVATE KEY" data with
  | Some r => Some r
  | None => decode_as "EC PRIVATE KEY" data
  end.

(** The leading tags of the two ASN.1 structures: a SEQUENCE opening with
    the INTEGER version, 0 for PKCS#1 and 1 for SEC 1, which goes on with
    an OCTET STRING. *)
Definition pkcs1_head : bytes := [x30; x02; x01; x00].
Definition sec1_head : bytes := [x30; x02; x01; x01; x04].

Definition curve_id (c : elliptic_Curve) : byte :=
  match c with P224 => x21 | P256 => x07 | P384 => x22 | P521 => x23 end.

Definition curve_of_id (b : byte) : option elliptic_Curve :=
  match b with
  | x21 => Some P224 | x07 => Some P256 | x22 => Some P384 | x23 => Some P521
  | _ => None
  end.

Definition MarshalPKCS1PrivateKey (k : rsa_key) : bytes := pkcs1_head ++ k.

Definition ParsePKCS1PrivateKey (der : bytes) : result rsa_key :=
  match strip_prefix pkcs1_head der with
  | Some k => Ok k
  | None => Err (errorString "asn1: structure error: tags don't match")
  end.

Definition MarshalECPrivateKey (k : ec_key) : result bytes :=
  Ok (sec1_head ++ curve_id k.1 :: k.2).

Definition ParseECPrivateKey (der : bytes) : result ec_key :=
  match strip_prefix sec1_head der with
  | Some (id :: d) =>
      match curve_of_id id with
      | Some c => Ok (c, d)
      | None => Err (errorString "x509: unknown elliptic curve")
      end
  | _ => Err (errorString "x509: failed to parse EC private key")
  end.

(** The one JSON text read: an object with the single member URI, a
    string without escapes. *)
Definition json_head : bytes := [x7b; x22; x55; x52; x49; x22; x3a; x22].

Fixpoint until_quote (l : bytes) : option (bytes * bytes) :=
  match l with
  | [] => None
  | b :: l' =>
      if decide (b = x22) then Some ([], l')
      else '(s, rest) ← until_quote l'; Some (b :: s, rest)
  end.

Definition Unmarshal (data : bytes) : result acmeAccountRegistration :=
  match strip_prefix json_head data ≫= until_quote with
  | Some (uri, [x7d]) => Ok (mkRegistration (string_of_bytes uri))
  | _ => Err (errorString "invalid character looking for beginning of value")
  end.

(** ** A world to run in

    The secret behind the account store, the accounts the authority knows
    by URI, and whether the authority answers at all. *)
Record outside : Type := mkOutside {
  secret : option (gmap string bytes);
  accounts : gmap string acme_Account;
  authority_up : bool
}.

Definition tos_url : string := "https://ca.example/terms".
Definition assigned_uri : string := "https://example/acct/1".
Definition unavailable : error := errorString "503 Service Unavailable".

Definition respond (X : Type) (e : Effect X) (o : outside) : X * outside :=
  match e in Effect X return X * outside with
  | Log_Infof _ => (tt, o)
  | kubelego_AcmeUser =>
      (match secret o with
       | Some m => Ok m
       | None => Err (errorString "secret not found")
       end, o)
  | kubelego_SaveAcmeUser m =>
      (None, mkOutside (Some m) (accounts o) (authority_up o))
  | rsa_GenerateKey bits =>
      (if bits <? 12
       then Err (errorString
              "crypto/rsa: too few primes of given length to generate an RSA key")
       else Ok [x2a; x17], o)
  | ecdsa_GenerateKey c => (Ok (c, [x2a; x17]), o)
  | Client_Register c a =>
      if authority_up o then
        let a' := mkAccount assigned_uri (Account_Contact a) (Account_other a) in
        (RegisterPrompt tos_url (λ agreed : bool,
           if agreed then Ok a'
           else Err (errorString "terms of service not agreed")),
         mkOutside (secret o) (<[assigned_uri := a']> (accounts o)) true)
      else (RegisterDone (Err unavailable), o)
  | Client_GetReg c uri =>
      (match accounts o !! uri with
       | Some a => Ok a
       | None => Err (errorString "account not found")
       end, o)
  | Client_UpdateReg c a =>
      if authority_up o then
        (Ok a, mkOutside (secret o) (<[Account_URI a := a]> (accounts o)) true)
      else (Err unavailable, o)
  end.

Definition world : World := mkWorld outside respond.

(** Configurations and states of the world *)
Definition rsa_2048 : KubeLego :=
  mkKubeLego "Admin@X.com" "https://ca.example/directory" key_rsa 2048.
Definition rsa_0 : KubeLego :=
  mkKubeLego "Admin@X.com" "https://ca.example/directory" key_rsa 0.
Definition ec_256 : KubeLego :=
  mkKubeLego "Admin@X.com" "https://ca.example/directory" key_ec 256.

Definition nothing_stored : outside := mkOutside None ∅ true.
Definition authority_down : outside := mkOutside None ∅ false.

Definition stored_key : bytes := [x2a; x17].
Definition stored_pem : bytes :=
  EncodeToMemory (mkBlock "RSA PRIVATE KEY" ∅ (MarshalPKCS1PrivateKey stored_key)).
Definition stored_client : acme_Client :=
  mkClient (SignerRsa stored_key) "https://ca.example/directory".
Definition account_of (contact : string) : acme_Account :=
  mkAccount assigned_uri (Some [contact]) "".

(** the account secret in today's layout, in the legacy layout, and with
    a key entry that is no PEM block *)
Definition provisioned (contact : string) (up : bool) : outside :=
  mkOutside
    (Some {[ AcmePrivateKey := stored_pem;
             AcmeRegistrationUrl := bytes_of_string assigned_uri ]})
    {[ assigned_uri := account_of contact ]} up.

Definition legacy_blob : bytes :=
  json_head ++ bytes_of_string assigned_uri ++ [x22; x7d].
Definition legacy_data : gmap string bytes :=
  {[ AcmePrivateKey := stored_pem; AcmeRegistration := legacy_blob ]}.
Definition legacy : outside :=
  mkOutside (Some legacy_data) {[ assigned_uri := account_of "mailto:admin@x.com" ]} true.

Definition garbled_data : gmap string bytes :=
  {[ AcmePrivateKey := bytes_of_string "not a pem";
     AcmeRegistrationUrl := bytes_of_string assigned_uri ]}.
Definition garbled : outside :=
  mkOutside (Some garbled_data) {[ assigned_uri := account_of "mailto:admin@x.com" ]} true.

(** ** The contracts hold *)

Lemma strip_prefix_app (p l : bytes) : strip_prefix p (p ++ l) = Some l.
Proof.
  induction p as [|a p IH]; [done|]. cbn. by rewrite decide_True.
Qed.

Lemma hex_value_digit (b : byte) :
  hex_value (hex_digit (Byte.to_N b / 16)) = Some (Byte.to_N b / 16)%N ∧
  hex_value (hex_digit (Byte.to_N b mod 16)) = Some (Byte.to_N b mod 16)%N ∧
  Byte.of_N (16 * (Byte.to_N b / 16) + Byte.to_N b mod 16) = Some b.
Proof. by destruct b. Qed.

Lemma unhex_hex (l rest : bytes) :
  unhex (hex l ++ x0a :: rest) = (l, x0a :: rest).
Proof.
  induction l as [|b l IH].
  - cbn. by destruct rest.
  - destruct (hex_value_digit b) as (Hhi & Hlo & Hb).
    cbn [hex app unhex]. by rewrite Hhi, Hlo, Hb, IH.
Qed.

Lemma decode_as_encode (t : string) (b : bytes) :
  decode_as t (EncodeToMemory (mkBlock t ∅ b)) = Some (mkBlock t ∅ b, []).
Proof.
  unfold decode_as, EncodeToMemory. cbn [Block_Type Block_Bytes].
  rewrite strip_prefix_app. cbn [mbind option_bind].
  unfold pem_end at 1. cbn [app]. rewrite unhex_hex.
  change (x0a :: bytes_of_string ("-----END " +:+ t +:+ "-----") ++ [x0a])
    with (pem_end t).
  by rewrite <- (app_nil_r (pem_end t)) at 2; rewrite strip_prefix_app.
Qed.

Lemma Decode_EncodeToMemory (t : string) (b : bytes) :
  t = "RSA PRIVATE KEY" ∨ t = "EC PRIVATE KEY" →
  Decode (EncodeToMemory (mkBlock t ∅ b)) = Some (mkBlock t ∅ b, []).
Proof.
  intros [-> | ->]; unfold Decode.
  - by rewrite decode_as_encode.
  - rewrite decode_as_encode.
    by replace (decode_as "RSA PRIVATE KEY" _) with (@None (pem_Block * bytes)).
Qed.

Lemma ParsePKCS1_Marshal (k : rsa_key) :
  ParsePKCS1PrivateKey (MarshalPKCS1PrivateKey k) = Ok k.
Proof. done. Qed.

Lemma ParseEC_Marshal (k : ec_key) (b : bytes) :
  MarshalECPrivateKey k = Ok b → ParseECPrivateKey b = Ok k.
Proof. intros [= <-]. by destruct k as [[] d]. Qed.

Lemma MarshalEC_Ok (k : ec_key) : is_Ok (MarshalECPrivateKey k) = true.
Proof. done. Qed.

Lemma ParsePKCS1_MarshalEC (k : ec_key) (b : bytes) :
  MarshalECPrivateKey k = Ok b → is_Ok (ParsePKCS1PrivateKey b) = false.
Proof. by intros [= <-]. Qed.

Lemma secret_frame (X : Type) (e : Effect X) (x : X) (s s1 : outside) :
  respond X e s = (x, s1) → save_call (Ev e x) = None → secret s1 = secret s.
Proof.
  destruct e; cbn; try destruct (authority_up s); intros [= <- <-]; try done.
Qed.

Definition golib : @GoStdlib keys :=
  @Build_GoStdlib keys
    ToLower EncodeToMemory Decode
    MarshalPKCS1PrivateKey ParsePKCS1PrivateKey
    MarshalECPrivateKey ParseECPrivateKey Unmarshal
    Decode_EncodeToMemory ParsePKCS1_Marshal ParseEC_Marshal
    MarshalEC_Ok ParsePKCS1_MarshalEC.

#[local] Existing Instance golib.

Definition secret_view : StoreView world := mkStoreView world _ secret secret_frame.

(** ** Runs *)

Example getContact_sample : getContact rsa_2048 = Some ["mailto:admin@x.com"].
Proof. reflexivity. Qed.

Example createUser_sample :
  let r := run world (createUser rsa_2048) nothing_stored in
  outcome_of r = Returned (Ok (stored_client, account_of "mailto:admin@x.com")) ∧
  final_of r = provisioned "mailto:admin@x.com" true.
Proof. vm_compute. repeat split; reflexivity. Qed.

Example existingAccountPath_sample :
  let r := run world (existingAccountPath rsa_2048) (provisioned "mailto:old@x.com" true) in
  outcome_of r = Returned (Ok (account_of "mailto:admin@x.com")) ∧
  final_of r = provisioned "mailto:admin@x.com" true.
Proof. vm_compute. repeat split; reflexivity. Qed.

(** A second provisioning run, against the store the first one filled:
    no register call, one fetch, and no update as the contact is the
    expected one. *)
Example second_run_sample :
  let first := run world (createUser rsa_2048) nothing_stored in
  let r := run world (existingAccountPath rsa_2048) (final_of first) in
  register_calls (trace_of r) = [] ∧
  getreg_calls (trace_of r) =
    [(stored_client, assigned_uri, Ok (account_of "mailto:admin@x.com"))] ∧
  updatereg_calls (trace_of r) = [] ∧
  final_of r = final_of first.
Proof. vm_compute. repeat split; reflexivity. Qed.

(** The contact differs: one update call, carrying the expected list. *)
Example contact_update_sample :
  let r := run world (validateUser rsa_2048 stored_client assigned_uri)
             (provisioned "mailto:b@x.com" true) in
  updatereg_calls (trace_of r) =
    [(stored_client, account_of "mailto:admin@x.com",
      Ok (account_of "mailto:admin@x.com"))].
Proof. vm_compute. reflexivity. Qed.

(** The comparison is sensitive to order and to nil. *)
Example reflect_DeepEqual_sample :
  reflect_DeepEqual (Some ["a"; "b"]) (Some ["b"; "a"]) = false ∧
  reflect_DeepEqual None (Some []) = false ∧
  reflect_DeepEqual (Some ["a"; "b"]) (Some ["a"; "b"]) = true.
Proof. done. Qed.

Example generatePrivateKey_512_sample :
  keygen_calls (trace_of (run world (generatePrivateKey (with_key_size ec_256 512))
                            nothing_stored))
    = [(inr P384, Ok (SignerEcdsa (P384, stored_key)))].
Proof. vm_compute. reflexivity. Qed.

Example getUser_legacy_sample :
  outcome_of (run world (getUser rsa_2048) legacy)
    = Returned (Ok (stored_client, assigned_uri)).
Proof. vm_compute. reflexivity. Qed.

Example getUser_garbled_sample :
  run world (getUser rsa_2048) garbled =
    ([Ev kubelego_AcmeUser (Ok garbled_data)],
     Panicked "runtime error: invalid memory address or nil pointer dereference",
     garbled).
Proof. vm_compute. reflexivity. Qed.

(** *** The theorems at work *)

Lemma getUser_malformed_pem_panics_witness :
  let r := run world (getUser rsa_2048) garbled in
  load_calls (trace_of r) = [Ok garbled_data] ∧
  garbled_data !! AcmePrivateKey = Some (bytes_of_string "not a pem") ∧
  pem_Decode (bytes_of_string "not a pem") = None ∧
  network_calls (trace_of r) = [] ∧
  ∃ msg, outcome_of r = Panicked msg.
Proof.
  assert (load_calls (trace_of (run world (getUser rsa_2048) garbled))
          = [Ok garbled_data]) as H1 by (vm_compute; reflexivity).
  assert (garbled_data !! AcmePrivateKey = Some (bytes_of_string "not a pem"))
    as H2 by (vm_compute; reflexivity).
  assert (pem_Decode (bytes_of_string "not a pem") = None) as H3
    by (vm_compute; reflexivity).
  exact (conj H1 (conj H2 (conj H3
    (getUser_malformed_pem_panics rsa_2048 world garbled _ _ H1 H2 H3)))).
Defined.

(** C2, as stated, fails: with an RSA key size of 0 key generation fails
    and [createUser] returns its error without any register call. *)
Lemma createUser_failed_keygen_registers_nothing :
  let r := run world (createUser rsa_0) nothing_stored in
  secret nothing_stored = None ∧
  length (register_calls (trace_of r)) = 0%nat ∧
  outcome_of r = Returned (Err (errorString
    "crypto/rsa: too few primes of given length to generate an RSA key")).
Proof. vm_compute. repeat split; reflexivity. Qed.

Lemma createUser_registers_once_and_saves_witness :
  let r := run world (createUser rsa_2048) nothing_stored in
  outcome_of (run world (generatePrivateKey rsa_2048) nothing_stored)
    = Returned (Ok (stored_pem, SignerRsa stored_key)) ∧
  ∃ registered,
    register_calls (trace_of r) =
      [(stored_client, mkAccount "" (Some ["mailto:admin@x.com"]) "", registered)] ∧
    ∀ account, registered = Ok account →
      ∃ (m : gmap string bytes) err,
        save_calls (trace_of r) = [(m, err)] ∧
        m !! AcmePrivateKey = Some stored_pem ∧
        m !! AcmeRegistrationUrl = Some (bytes_of_string (Account_URI account)) ∧
        dom m = {[AcmePrivateKey; AcmeRegistrationUrl]}.
Proof.
  assert (outcome_of (run world (generatePrivateKey rsa_2048) nothing_stored)
          = Returned (Ok (stored_pem, SignerRsa stored_key))) as H1 by (vm_compute; reflexivity).
  exact (conj H1
    (createUser_registers_once_and_saves rsa_2048 world nothing_stored _ _ H1)).
Defined.

Lemma validateUser_contact_sync_witness :
  let r := run world (validateUser rsa_2048 stored_client assigned_uri)
             (provisioned "mailto:old@x.com" true) in
  let expected : slice string := Some ["mailto:" +:+ ToLower "Admin@X.com"] in
  ∃ fetched,
    getreg_calls (trace_of r) = [(stored_client, assigned_uri, fetched)] ∧
    ∀ account, fetched = Ok account →
      (Account_Contact account = expected → updatereg_calls (trace_of r) = []) ∧
      (Account_Contact account ≠ expected →
         ∃ updated, updatereg_calls (trace_of r) =
           [(stored_client,
             mkAccount (Account_URI account) expected (Account_other account),
             updated)]).
Proof.
  exact (validateUser_contact_sync rsa_2048 world
           (provisioned "mailto:old@x.com" true) stored_client assigned_uri).
Defined.

Lemma generatePrivateKey_unsupported_size_is_384_witness :
  generatePrivateKey (with_key_size ec_256 512)
    = generatePrivateKey (with_key_size ec_256 384) ∧
  ∀ (W : World) (s : WState W),
    ∃ generated,
      keygen_calls (trace_of (run W (generatePrivateKey (with_key_size ec_256 512)) s))
        = [(inr P384, generated)].
Proof.
  apply (generatePrivateKey_unsupported_size_is_384 ec_256 512); done.
Defined.

Lemma getUser_rejects_stored_ec_key_witness :
  let r := run world (createUser ec_256) nothing_stored in
  LegoKeyType ec_256 ≠ KeyTypeRsa ∧
  outcome_of r = Returned (Ok
    (mkClient (SignerEcdsa (P256, stored_key)) "https://ca.example/directory",
     account_of "mailto:admin@x.com")) ∧
  ∃ saved,
    save_calls (trace_of r) = [(saved, None)] ∧
    ∀ (W' : World) (s' : WState W'),
      load_calls (trace_of (run W' (getUser ec_256) s')) = [Ok saved] →
      ∃ err, outcome_of (run W' (getUser ec_256) s') = Returned (Err err).
Proof.
  assert (LegoKeyType ec_256 ≠ KeyTypeRsa) as H1 by done.
  assert (outcome_of (run world (createUser ec_256) nothing_stored) =
    Returned (Ok
      (mkClient (SignerEcdsa (P256, stored_key)) "https://ca.example/directory",
       account_of "mailto:admin@x.com"))) as H2 by (vm_compute; reflexivity).
  exact (conj H1 (conj H2
    (getUser_rejects_stored_ec_key ec_256 world nothing_stored _ _ H1 H2))).
Defined.

(** The same at the failing input, evaluated: an EC account is created
    and saved, and the next load fails. *)
Example getUser_after_ec_createUser :
  let created := run world (createUser ec_256) nothing_stored in
  is_Ok (match outcome_of created with Returned r => r | Panicked _ => Err unavailable end)
    = true ∧
  outcome_of (run world (getUser ec_256) (final_of created))
    = Returned (Err (errorString "asn1: structure error: tags don't match")).
Proof. vm_compute. repeat split; reflexivity. Qed.


Lemma generatePrivateKey_pem_round_trip_witness :
  (let r := run world (generatePrivateKey rsa_2048) nothing_stored in
   keygen_calls (trace_of r) = [(inl 2048, Ok (SignerRsa stored_key))] ∧
   ∃ pem block,
     outcome_of r = Returned (Ok (pem, SignerRsa stored_key)) ∧
     pem_Decode pem = Some (block, []) ∧
     Block_Type block = "RSA PRIVATE KEY" ∧
     family_parse FamilyRsa (Block_Bytes block) = Ok (SignerRsa stored_key)) ∧
  (let r := run world (generatePrivateKey ec_256) nothing_stored in
   keygen_calls (trace_of r) = [(inr P256, Ok (SignerEcdsa (P256, stored_key)))] ∧
   ∃ pem block,
     outcome_of r = Returned (Ok (pem, SignerEcdsa (P256, stored_key))) ∧
     pem_Decode pem = Some (block, []) ∧
     Block_Type block = "EC PRIVATE KEY" ∧
     family_parse FamilyEc (Block_Bytes block)
       = Ok (SignerEcdsa (P256, stored_key))).
Proof.
  assert (keygen_calls (trace_of (run world (generatePrivateKey rsa_2048) nothing_stored))
          = [(inl 2048, Ok (SignerRsa stored_key))]) as Hrsa
    by (vm_compute; reflexivity).
  assert (keygen_calls (trace_of (run world (generatePrivateKey ec_256) nothing_stored))
          = [(inr P256, Ok (SignerEcdsa (P256, stored_key)))]) as Hec
    by (vm_compute; reflexivity).
  split.
  - split; [exact Hrsa|].
    destruct (generatePrivateKey_pem_round_trip rsa_2048 world nothing_stored)
      as (request & generated & Hcall & _ & _ & Hkey).
    rewrite Hrsa in Hcall. injection Hcall as <- <-. exact Hkey.
  - split; [exact Hec|].
    destruct (generatePrivateKey_pem_round_trip ec_256 world nothing_stored)
      as (request & generated & Hcall & _ & _ & Hkey).
    rewrite Hec in Hcall. injection Hcall as <- <-. exact Hkey.
Defined.

(** C9, as stated, fails: the error of a rejected update names the contact
    and not the account URI, and the error of a rejected registration is
    returned as it is. *)
Lemma update_and_register_errors_not_wrapped_with_uri :
  let v := run world (validateUser rsa_2048 stored_client assigned_uri)
             (provisioned "mailto:old@x.com" false) in
  let c := run world (createUser rsa_2048) authority_down in
  updatereg_calls (trace_of v) =
    [(stored_client, account_of "mailto:admin@x.com", Err unavailable)] ∧
  outcome_of v = Returned (Err (errorString
    "failed to update ACME account's contact to '[mailto:admin@x.com]': 503 Service Unavailable")) ∧
  wraps assigned_uri unavailable (errorString
    "failed to update ACME account's contact to '[mailto:admin@x.com]': 503 Service Unavailable")
    = false ∧
  register_calls (trace_of c) =
    [(stored_client, mkAccount "" (Some ["mailto:admin@x.com"]) "", Err unavailable)] ∧
  outcome_of c = Returned (Err unavailable) ∧
  wraps (LegoURL rsa_2048) unavailable unavailable = false ∧
  wraps assigned_uri unavailable unavailable = false.
Proof. vm_compute. repeat split; reflexivity. Qed.

Lemma directory_errors_as_surfaced_witness :
  let r := run world (validateUser rsa_2048 stored_client assigned_uri)
             (provisioned "mailto:old@x.com" false) in
  updatereg_calls (trace_of r) =
    [(stored_client, account_of "mailto:admin@x.com", Err unavailable)] ∧
  ∃ e, outcome_of r = Returned (Err e) ∧
    Error e = "failed to update ACME account's contact to '[mailto:"
                +:+ ToLower "Admin@X.com" +:+ "]': " +:+ Error unavailable ∧
    strings_Contains (Error e) (Error unavailable) = true.
Proof.
  assert (updatereg_calls (trace_of (run world
            (validateUser rsa_2048 stored_client assigned_uri)
            (provisioned "mailto:old@x.com" false))) =
          [(stored_client, account_of "mailto:admin@x.com", Err unavailable)])
    as H1 by (vm_compute; reflexivity).
  exact (conj H1
    (proj2 (proj1 (directory_errors_as_surfaced rsa_2048 world
       (provisioned "mailto:old@x.com" false) stored_client assigned_uri unavailable))
       _ _ H1)).
Defined.

Lemma createUser_register_error_no_write_witness :
  let r := run world (createUser rsa_2048) authority_down in
  (stored_client, mkAccount "" (Some ["mailto:admin@x.com"]) "", Err unavailable)
    ∈ register_calls (trace_of r) ∧
  outcome_of r = Returned (Err unavailable) ∧
  save_calls (trace_of r) = [] ∧
  ∀ V : StoreView world, store_of V (final_of r) = store_of V authority_down.
Proof.
  assert ((stored_client, mkAccount "" (Some ["mailto:admin@x.com"]) "",
           Err unavailable)
          ∈ register_calls (trace_of (run world (createUser rsa_2048) authority_down)))
    as H1 by (vm_compute; apply list_elem_of_here).
  exact (conj H1
    (createUser_register_error_no_write rsa_2048 world authority_down _ _ _ H1)).
Defined.

Lemma existing_account_path_never_writes_witness :
  let r := run world (existingAccountPath rsa_2048) (provisioned "mailto:old@x.com" true) in
  save_calls (trace_of r) = [] ∧ keygen_calls (trace_of r) = [] ∧
  secret (final_of r) = secret (provisioned "mailto:old@x.com" true).
Proof.
  destruct (existing_account_path_never_writes rsa_2048 world
              (provisioned "mailto:old@x.com" true)) as (_ & _ & Hs & Hk & Hv).
  exact (conj Hs (conj Hk (Hv secret_view))).
Defined.

(** *** Further properties at work *)

Definition no_contact : outside :=
  mkOutside None {[ assigned_uri := mkAccount assigned_uri None "" ]} true.

Lemma getUser_loads_stored_rsa_key_witness :
  let r := run world (createUser rsa_2048) nothing_stored in
  LegoKeyType rsa_2048 = KeyTypeRsa ∧
  outcome_of r = Returned (Ok (stored_client, account_of "mailto:admin@x.com")) ∧
  ∃ saved,
    save_calls (trace_of r) = [(saved, None)] ∧
    ∀ (W' : World) (s' : WState W'),
      load_calls (trace_of (run W' (getUser rsa_2048) s')) = [Ok saved] →
      outcome_of (run W' (getUser rsa_2048) s')
        = Returned (Ok (stored_client, assigned_uri)).
Proof.
  assert (LegoKeyType rsa_2048 = KeyTypeRsa) as H1 by reflexivity.
  assert (outcome_of (run world (createUser rsa_2048) nothing_stored)
          = Returned (Ok (stored_client, account_of "mailto:admin@x.com")))
    as H2 by (vm_compute; reflexivity).
  exact (conj H1 (conj H2
    (getUser_loads_stored_rsa_key rsa_2048 world nothing_stored _ _ H1 H2))).
Defined.

Lemma getUser_direct_uri_witness :
  outcome_of (run world (getUser rsa_2048) (provisioned "mailto:admin@x.com" true))
    = Returned (Ok (stored_client, assigned_uri)).
Proof.
  apply (getUser_direct_uri rsa_2048 world (provisioned "mailto:admin@x.com" true)
           {[ AcmePrivateKey := stored_pem;
              AcmeRegistrationUrl := bytes_of_string assigned_uri ]}
           stored_pem
           (mkBlock "RSA PRIVATE KEY" ∅ (MarshalPKCS1PrivateKey stored_key)) []
           stored_key (bytes_of_string assigned_uri)); vm_compute; reflexivity.
Defined.

(** a key entry that is a PEM block of an EC key, and nothing else *)
Definition ec_pem : bytes :=
  EncodeToMemory (mkBlock "EC PRIVATE KEY" ∅ (sec1_head ++ [x07; x2a; x17])).
Definition ec_only_data : gmap string bytes := {[ AcmePrivateKey := ec_pem ]}.
Definition ec_only : outside := mkOutside (Some ec_only_data) ∅ true.

Lemma getUser_decode_errors_witness :
  let r := run world (getUser rsa_2048) ec_only in
  let block := mkBlock "EC PRIVATE KEY" ∅ (sec1_head ++ [x07; x2a; x17]) in
  (∀ err, x509_ParsePKCS1PrivateKey (Block_Bytes block) = Err err →
     outcome_of r = Returned (Err err)) ∧
  (∀ privateKey, x509_ParsePKCS1PrivateKey (Block_Bytes block) = Ok privateKey →
     ec_only_data !! AcmeRegistrationUrl = None →
     (ec_only_data !! AcmeRegistration = None →
        outcome_of r = Returned (Err (errorString
          "could not find an ACME account URI in the account secret"))) ∧
     (∀ regData err, ec_only_data !! AcmeRegistration = Some regData →
        json_Unmarshal regData = Err err →
        outcome_of r = Returned (Err err))).
Proof.
  apply (getUser_decode_errors rsa_2048 world ec_only ec_only_data ec_pem _ []);
    vm_compute; reflexivity.
Defined.

Lemma createUser_keygen_failure_witness :
  let r := run world (createUser rsa_0) nothing_stored in
  keygen_calls (trace_of r) =
    [(inl 0, Err (errorString
        "crypto/rsa: too few primes of given length to generate an RSA key"))] ∧
  outcome_of r = Returned (Err (errorString
    "crypto/rsa: too few primes of given length to generate an RSA key")) ∧
  register_calls (trace_of r) = [] ∧
  save_calls (trace_of r) = [] ∧
  length (trace_of r) = 1%nat.
Proof.
  assert (keygen_calls (trace_of (run world (createUser rsa_0) nothing_stored)) =
    [(inl 0, Err (errorString
        "crypto/rsa: too few primes of given length to generate an RSA key"))])
    as H1 by (vm_compute; reflexivity).
  exact (conj H1 (createUser_keygen_failure rsa_0 world nothing_stored _ _ H1)).
Defined.

Lemma createUser_result_follows_store_write_witness :
  let r := run world (createUser rsa_2048) nothing_stored in
  register_calls (trace_of r) =
    [(stored_client, mkAccount "" (Some ["mailto:admin@x.com"]) "",
      Ok (account_of "mailto:admin@x.com"))] ∧
  save_calls (trace_of r) =
    [({[ AcmePrivateKey := stored_pem;
         AcmeRegistrationUrl := bytes_of_string assigned_uri ]}, None)] ∧
  outcome_of r = Returned (Ok (stored_client, account_of "mailto:admin@x.com")).
Proof.
  assert (register_calls (trace_of (run world (createUser rsa_2048) nothing_stored)) =
    [(stored_client, mkAccount "" (Some ["mailto:admin@x.com"]) "",
      Ok (account_of "mailto:admin@x.com"))]) as H1 by (vm_compute; reflexivity).
  assert (save_calls (trace_of (run world (createUser rsa_2048) nothing_stored)) =
    [({[ AcmePrivateKey := stored_pem;
         AcmeRegistrationUrl := bytes_of_string assigned_uri ]}, None)])
    as H2 by (vm_compute; reflexivity).
  exact (conj H1 (conj H2
    (createUser_result_follows_store_write rsa_2048 world nothing_stored
       _ _ _ _ _ H1 H2))).
Defined.

Lemma validateUser_replaces_odd_contact_lists_witness :
  let r := run world (validateUser rsa_2048 stored_client assigned_uri) no_contact in
  getreg_calls (trace_of r) =
    [(stored_client, assigned_uri, Ok (mkAccount assigned_uri None ""))] ∧
  ∃ updated,
    updatereg_calls (trace_of r) =
      [(stored_client,
        mkAccount assigned_uri (Some ["mailto:" +:+ ToLower "Admin@X.com"]) "",
        updated)].
Proof.
  assert (getreg_calls (trace_of (run world
            (validateUser rsa_2048 stored_client assigned_uri) no_contact)) =
          [(stored_client, assigned_uri, Ok (mkAccount assigned_uri None ""))])
    as H1 by (vm_compute; reflexivity).
  exact (conj H1
    (validateUser_replaces_odd_contact_lists rsa_2048 world no_contact
       stored_client assigned_uri _ H1 (or_introl eq_refl))).
Defined.

Lemma validateUser_idempotent_witness :
  let first := run world (validateUser rsa_2048 stored_client assigned_uri)
                 (provisioned "mailto:old@x.com" true) in
  let second := run world (validateUser rsa_2048 stored_client assigned_uri)
                  (final_of first) in
  updatereg_calls (trace_of first) =
    [(stored_client, account_of "mailto:admin@x.com",
      Ok (account_of "mailto:admin@x.com"))] ∧
  getreg_calls (trace_of second) =
    [(stored_client, assigned_uri, Ok (account_of "mailto:admin@x.com"))] ∧
  updatereg_calls (trace_of second) = [] ∧
  outcome_of second = Returned (Ok (account_of "mailto:admin@x.com")).
Proof.
  assert (updatereg_calls (trace_of (run world
            (validateUser rsa_2048 stored_client assigned_uri)
            (provisioned "mailto:old@x.com" true))) =
    [(stored_client, account_of "mailto:admin@x.com",
      Ok (account_of "mailto:admin@x.com"))]) as H1 by (vm_compute; reflexivity).
  assert (getreg_calls (trace_of (run world
            (validateUser rsa_2048 stored_client assigned_uri)
            (final_of (run world (validateUser rsa_2048 stored_client assigned_uri)
                         (provisioned "mailto:old@x.com" true))))) =
    [(stored_client, assigned_uri, Ok (account_of "mailto:admin@x.com"))])
    as H2 by (vm_compute; reflexivity).
  exact (conj H1 (conj H2
    (validateUser_idempotent rsa_2048 world world _ _ _ _ _ _ _ _ _ H1 H2))).
Defined.

End Sample.
